(** * kv task service: run ledger and next-run scheduling

    A shallow embedding of the task half of package [kv]
    (FindRunByID, CancelRun, RetryRun, ForceRun, CreateNextRun, FinishRun,
    UpdateRunState, AddRunLog, DeleteTask and their helpers), over a
    transactional store of three buckets, followed by the properties of the
    run ledger that the design document states. *)

From stdpp Require Import gmap strings list fin_maps.
From Stdlib Require Import ZArith NArith Ascii String.

Local Open Scope string_scope.
Local Open Scope Z_scope.
Local Open Scope list_scope.

(** ** Identifiers and keys *)

(** [influxdb.ID] is an unsigned 64-bit integer. *)
Definition ID := N.

(** Modelled from the spec: [ID.Valid] of package influxdb, whose source is
    not part of this package; the zero identifier is the malformed one. *)
Definition Valid (i : ID) : bool := negb (N.eqb i 0).

Definition hexdigit (d : N) : ascii :=
  nth (N.to_nat d) (list_ascii_of_string "0123456789abcdef") "0"%char.

Fixpoint hex (width : nat) (n : N) : string :=
  match width with
  | O => ""
  | S w => hex w (n / 16) +:+ String (hexdigit (n mod 16)) ""
  end.

(** Modelled from the spec: [ID.Encode] of package influxdb (the [encode]
    of the key layout table): sixteen lower-case hexadecimal digits, most
    significant first; it fails on the zero identifier. *)
Definition Encode (i : ID) : option string :=
  if Valid i then Some (hex 16 i) else None.

(** ** Time *)

(** [time.Time] at the granularity of RFC3339 text: seconds since the Unix
    epoch.  [zeroTime] is the instant of [time.Time{}], January 1 of year 1. *)
Definition Time := Z.
Definition zeroTime : Time := -62135596800.
Definition IsZero (t : Time) : bool := Z.eqb t zeroTime.
Definition After (t u : Time) : bool := Z.ltb u t.
Definition Unix (t : Time) : Z := t.
Definition time_Unix (sec : Z) : Time := sec.

(** The text of a timestamp field.  These fields hold either the empty
    string or what [Format(time.RFC3339)] printed; a printed instant is
    kept as the instant, so that two texts are equal exactly when the
    instants are.  Reading a printed instant back is exact for the years
    0000 to 9999; properties that print and then parse are stated for
    those instants. *)
Inductive timestr :=
| Blank
| Stamp (t : Time).

Global Instance timestr_eq_dec : EqDecision timestr.
Proof. solve_decision. Defined.

Definition Format (t : Time) : timestr := Stamp t.

(** ** Errors *)

Inductive Code := EInternal | ENotFound | EInvalid | EConflict.

(** Modelled from the spec: the storage contract's [Get(key) -> value |
    NotFound]; [ErrKeyNotFound] is that sentinel and [ErrStorageFault] any
    other error of the storage engine. *)
Inductive KVError := ErrKeyNotFound | ErrStorageFault.

Global Instance KVError_eq_dec : EqDecision KVError.
Proof. solve_decision. Defined.

(** [err == ErrKeyNotFound] and the like. *)
Definition KVError_eqb (e1 e2 : KVError) : bool :=
  match e1, e2 with
  | ErrKeyNotFound, ErrKeyNotFound => true
  | ErrStorageFault, ErrStorageFault => true
  | _, _ => false
  end.

Definition IsNotFound (e : KVError) : bool := KVError_eqb e ErrKeyNotFound.

Inductive Error :=
| ErrInvalidTaskID
| ErrRunNotFound
| ErrTaskRunAlreadyQueued
| ErrInternalTaskServiceError
| ErrUnexpectedTaskBucketErr (err : KVError)
| ErrTaskTimeParse
| backend_ErrTaskNotFound
| backend_RunNotYetDueError (DueAt : Z)
| time_ParseError
| storage_Error (err : KVError).

Global Instance Error_eq_dec : EqDecision Error.
Proof. solve_decision. Defined.

(** The [Code] field of the error values this package builds; errors built
    elsewhere carry none here. *)
Definition ErrorCode (e : Error) : option Code :=
  match e with
  | ErrInvalidTaskID => Some EInvalid
  | ErrRunNotFound => Some ENotFound
  | ErrTaskRunAlreadyQueued => Some EConflict
  | ErrInternalTaskServiceError => Some EInternal
  | ErrUnexpectedTaskBucketErr _ => Some EInternal
  | ErrTaskTimeParse => Some EInvalid
  | _ => None
  end.

(** Modelled from the spec: [time.Parse(time.RFC3339, s)]; the empty string
    does not parse. *)
Definition time_Parse (s : timestr) : Error + Time :=
  match s with
  | Blank => inl time_ParseError
  | Stamp t => inr t
  end.

(** ** Entities *)

Record Log := mkLog { log_Time : timestr; log_Message : string }.

(** Modelled from the spec: [influxdb.Run] (section 3, Run). *)
Record Run := mkRun {
  run_ID : ID;
  run_TaskID : ID;
  run_Status : string;
  run_ScheduledFor : timestr;
  run_StartedAt : timestr;
  run_FinishedAt : timestr;
  run_RequestedAt : timestr;
  run_Log : list Log
}.

(** Modelled from the spec: [influxdb.Task] (section 3, Task), without the
    script and the authorization reference. *)
Record Task := mkTask {
  task_ID : ID;
  task_OrganizationID : ID;
  task_Name : string;
  task_Status : string;
  task_Every : string;
  task_Cron : string;
  task_Offset : string;
  task_CreatedAt : timestr;
  task_UpdatedAt : timestr;
  task_LatestCompleted : timestr
}.

Definition set_run_ID (i : ID) (r : Run) : Run :=
  mkRun i (run_TaskID r) (run_Status r) (run_ScheduledFor r) (run_StartedAt r)
        (run_FinishedAt r) (run_RequestedAt r) (run_Log r).
Definition set_run_Status (s : string) (r : Run) : Run :=
  mkRun (run_ID r) (run_TaskID r) s (run_ScheduledFor r) (run_StartedAt r)
        (run_FinishedAt r) (run_RequestedAt r) (run_Log r).
Definition set_run_StartedAt (s : timestr) (r : Run) : Run :=
  mkRun (run_ID r) (run_TaskID r) (run_Status r) (run_ScheduledFor r) s
        (run_FinishedAt r) (run_RequestedAt r) (run_Log r).
Definition set_run_FinishedAt (s : timestr) (r : Run) : Run :=
  mkRun (run_ID r) (run_TaskID r) (run_Status r) (run_ScheduledFor r)
        (run_StartedAt r) s (run_RequestedAt r) (run_Log r).
Definition set_run_RequestedAt (s : timestr) (r : Run) : Run :=
  mkRun (run_ID r) (run_TaskID r) (run_Status r) (run_ScheduledFor r)
        (run_StartedAt r) (run_FinishedAt r) s (run_Log r).
Definition set_run_Log (l : list Log) (r : Run) : Run :=
  mkRun (run_ID r) (run_TaskID r) (run_Status r) (run_ScheduledFor r)
        (run_StartedAt r) (run_FinishedAt r) (run_RequestedAt r) l.
Definition set_task_LatestCompleted (s : timestr) (t : Task) : Task :=
  mkTask (task_ID t) (task_OrganizationID t) (task_Name t) (task_Status t)
         (task_Every t) (task_Cron t) (task_Offset t) (task_CreatedAt t)
         (task_UpdatedAt t) s.

(** Modelled from the spec: [Run.ScheduledForTime] and [Run.RequestedAtTime]
    of package influxdb; a run that was not requested by hand has an empty
    [RequestedAt], which reads as the zero time. *)
Definition ScheduledForTime (r : Run) : Error + Time :=
  time_Parse (run_ScheduledFor r).
Definition RequestedAtTime (r : Run) : Error + Time :=
  match run_RequestedAt r with
  | Blank => inr zeroTime
  | s => time_Parse s
  end.

(** Modelled from the spec: [Task.EffectiveCron] of package influxdb; the
    cron expression if there is one, else the interval as an [@every]
    expression. *)
Definition EffectiveCron (t : Task) : string :=
  if String.eqb (task_Cron t) "" then
    if String.eqb (task_Every t) "" then "" else "@every " +:+ task_Every t
  else task_Cron t.

(** Modelled from the spec: [backend.RunStatus] and its [String] method
    (section 3: scheduled | started | success | failed | canceled). *)
Inductive RunStatus := RunStarted | RunSuccess | RunFail | RunCanceled | RunScheduled.

Definition RunStatus_String (s : RunStatus) : string :=
  match s with
  | RunStarted => "started"
  | RunSuccess => "success"
  | RunFail => "failed"
  | RunCanceled => "canceled"
  | RunScheduled => "scheduled"
  end.

(** Modelled from the spec: [backend.QueuedRun] and [backend.RunCreation],
    the creation result of section 4.3. *)
Record QueuedRun := mkQueuedRun {
  qr_TaskID : ID;
  qr_RunID : ID;
  qr_Now : Z;
  qr_RequestedAt : Z
}.

Record RunCreation := mkRunCreation {
  rc_Created : QueuedRun;
  rc_NextDue : Z;
  rc_HasQueue : bool
}.

(** Modelled from the spec: [influxdb.TaskMaxPageSize], the largest page. *)
Definition TaskMaxPageSize : Z := 500.

(** ** Stored values *)

(** What a bucket holds under a key: the JSON text of a task, of a run or
    of an array of runs, or raw bytes.  [json.Marshal] tags the value and
    [json.Unmarshal] reads back a value of the shape it is asked for. *)
Inductive Value :=
| JTask (t : Task)
| JRun (r : Run)
| JRuns (l : list Run)
| Raw (s : string).

Definition unmarshalTask (v : Value) : option Task :=
  match v with JTask t => Some t | _ => None end.
Definition unmarshalRun (v : Value) : option Run :=
  match v with JRun r => Some r | _ => None end.
Definition unmarshalRuns (v : Value) : option (list Run) :=
  match v with JRuns l => Some l | _ => None end.

(** ** The store and its transactions *)

Inductive BucketName := taskBucket | taskRunBucket | taskIndexBucket.

Record Store := mkStore {
  tasksv1 : gmap string Value;
  taskRunsv1 : gmap string Value;
  taskIndexsv1 : gmap string Value
}.

Definition bucket (b : BucketName) (s : Store) : gmap string Value :=
  match b with
  | taskBucket => tasksv1 s
  | taskRunBucket => taskRunsv1 s
  | taskIndexBucket => taskIndexsv1 s
  end.

Definition with_bucket (b : BucketName) (m : gmap string Value) (s : Store) : Store :=
  match b with
  | taskBucket => mkStore m (taskRunsv1 s) (taskIndexsv1 s)
  | taskRunBucket => mkStore (tasksv1 s) m (taskIndexsv1 s)
  | taskIndexBucket => mkStore (tasksv1 s) (taskRunsv1 s) m
  end.

(** The state of the service, and what a transaction function sees of it:
    the store (inside a transaction, as written so far), how many
    identifiers the generator has handed out, and the wall clock. *)
Record State := mkState {
  store : Store;
  issued : nat;
  clock : Time
}.

Definition Tx (A : Type) : Type := State -> (Error + A) * State.

Global Instance Tx_ret : MRet Tx := fun A a st => (inr a, st).
Global Instance Tx_bind : MBind Tx := fun A B f m st =>
  match m st with
  | (inl e, st') => (inl e, st')
  | (inr a, st') => f a st'
  end.

Definition fail {A} (e : Error) : Tx A := fun st => (inl e, st).

(** [x, err := f(); if err != nil { return wrapped }] for a step that does
    not touch the store. *)
Definition orFail {A} (e : Error) (o : option A) : Tx A :=
  match o with Some a => mret a | None => fail e end.
Definition liftE {A} (r : Error + A) : Tx A :=
  match r with inr a => mret a | inl e => fail e end.
Definition wrapE {A} (e : Error) (r : Error + A) : Tx A :=
  match r with inr a => mret a | inl _ => fail e end.

(** Modelled from the spec: the storage contract of section 6,
    [tx.Bucket], [Get(key) -> value | NotFound], [Put(key, value)] and
    [Delete(key)], over finite maps.  The three buckets exist, writes
    succeed, and deleting an absent key is not an error. *)
Definition Bucket (b : BucketName) : Tx BucketName := mret b.

Definition Get (b : BucketName) (key : string) : Tx (KVError + Value) :=
  fun st => match bucket b (store st) !! key with
            | Some v => (inr (inr v), st)
            | None => (inr (inl ErrKeyNotFound), st)
            end.

Definition Put (b : BucketName) (key : string) (v : Value) : Tx unit :=
  fun st => (inr tt,
             mkState (with_bucket b (<[key := v]> (bucket b (store st))) (store st))
                     (issued st) (clock st)).

Definition Delete (b : BucketName) (key : string) : Tx unit :=
  fun st => (inr tt,
             mkState (with_bucket b (delete key (bucket b (store st))) (store st))
                     (issued st) (clock st)).

Definition time_Now : Tx Time := fun st => (inr (clock st), st).

(** Modelled from the spec: the cursor of the storage contract, yielding
    the entries of a bucket in byte order of the keys. *)
Fixpoint insert_sorted (e : string * Value) (l : list (string * Value)) : list (string * Value) :=
  match l with
  | [] => [e]
  | x :: l' => if String.leb (fst e) (fst x) then e :: l else x :: insert_sorted e l'
  end.

Definition entries (m : gmap string Value) : list (string * Value) :=
  foldr insert_sorted [] (map_to_list m).

(** [c.Seek(key)] and the [c.Next()] calls after it: the entries at or
    after [key]. *)
Definition Seek (b : BucketName) (key : string) : Tx (list (string * Value)) :=
  fun st => (inr (List.filter (fun e => String.leb key (fst e)) (entries (bucket b (store st)))), st).

Definition HasPrefix (s p : string) : bool := String.prefix p s.
Definition HasSuffix (s suf : string) : bool :=
  Nat.leb (String.length suf) (String.length s)
  && String.eqb (substring (String.length s - String.length suf) (String.length suf) s) suf.

(** ** Keys *)

Definition taskKey (taskID : ID) : Error + string :=
  match Encode taskID with
  | None => inl ErrInvalidTaskID
  | Some encodedID => inr encodedID
  end.

Definition taskLatestCompletedKey (taskID : ID) : Error + string :=
  match Encode taskID with
  | None => inl ErrInvalidTaskID
  | Some encodedID => inr (encodedID +:+ "/latestCompleted")
  end.

Definition taskManualRunKey (taskID : ID) : Error + string :=
  match Encode taskID with
  | None => inl ErrInvalidTaskID
  | Some encodedID => inr (encodedID +:+ "/manualRuns")
  end.

Definition taskOrgKey (orgID taskID : ID) : Error + string :=
  match Encode orgID with
  | None => inl ErrInvalidTaskID
  | Some encodedOrgID =>
      match Encode taskID with
      | None => inl ErrInvalidTaskID
      | Some encodedID => inr (encodedOrgID +:+ "/" +:+ encodedID)
      end
  end.

Definition taskRunKey (taskID runID : ID) : Error + string :=
  match Encode taskID with
  | None => inl ErrInvalidTaskID
  | Some encodedID =>
      match Encode runID with
      | None => inl ErrInvalidTaskID
      | Some encodedRunID => inr (encodedID +:+ "/" +:+ encodedRunID)
      end
  end.

(** ** The service *)

Section Service.

(** The collaborators of the service: the identifier generator (its
    n-th identifier), the cron parser (a parsed schedule is its [Next]
    method) and the parser of offsets (a parsed offset is its [Add]
    method). *)
Variable IDGenerator : nat -> ID.
Variable cron_Parse : string -> option (Time -> Time).
Variable offset_Parse : string -> option (Time -> option Time).

Definition IDGenerator_ID : Tx ID :=
  fun st => (inr (IDGenerator (issued st)),
             mkState (store st) (S (issued st)) (clock st)).

(** Modelled from the spec: [kv.Update] and [kv.View] of the storage
    contract.  The writes of the function given to [Update] are committed
    only if it returns no error; [View] is a read-only transaction. *)
Definition Update {A} (fn : Tx A) : Tx A :=
  fun st => match fn st with
            | (inr a, st') => (inr a, st')
            | (inl e, st') => (inl e, mkState (store st) (issued st') (clock st'))
            end.

Definition View {A} (fn : Tx A) : Tx A :=
  fun st => let (r, st') := fn st in
            (r, mkState (store st) (issued st') (clock st')).

Definition findLatestCompleted (id : ID) : Tx (option Run) :=
  bucket ← Bucket taskRunBucket;
  key ← liftE (taskLatestCompletedKey id);
  bytes ← Get bucket key;
  match bytes with
  | inl err =>
      if KVError_eqb err ErrKeyNotFound then mret None
      else fail (ErrUnexpectedTaskBucketErr err)
  | inr bytes =>
      run ← orFail ErrInternalTaskServiceError (unmarshalRun bytes);
      mret (Some run)
  end.

Definition findLatestCompletedTime (id : ID) : Tx Time :=
  run ← findLatestCompleted id;
  match run with
  | None => mret zeroTime
  | Some run => liftE (ScheduledForTime run)
  end.

Definition findTaskByID (id : ID) : Tx Task :=
  taskKey ← liftE (taskKey id);
  b ← Bucket taskBucket;
  v ← Get b taskKey;
  match v with
  | inl err =>
      if IsNotFound err then fail backend_ErrTaskNotFound
      else fail (storage_Error err)
  | inr v =>
      t ← orFail ErrInternalTaskServiceError (unmarshalTask v);
      latestCompleted ← findLatestCompletedTime (task_ID t);
      if negb (IsZero latestCompleted)
      then mret (set_task_LatestCompleted (Format latestCompleted) t)
      else mret (set_task_LatestCompleted (task_CreatedAt t) t)
  end.

Definition manualRuns (taskID : ID) : Tx (list Run) :=
  b ← Bucket taskRunBucket;
  key ← liftE (taskManualRunKey taskID);
  val ← Get b key;
  match val with
  | inl err =>
      if KVError_eqb err ErrKeyNotFound then mret []
      else fail (ErrUnexpectedTaskBucketErr err)
  | inr val => orFail ErrInternalTaskServiceError (unmarshalRuns val)
  end.

(** The loop of [currentlyRunning] over the cursor, [c] being what is
    left of it. *)
Fixpoint currentlyRunning_loop (taskID : ID) (taskKey : string)
    (c : list (string * Value)) (runs : list Run) : Error + list Run :=
  match c with
  | [] => inr runs
  | (k, v) :: c' =>
      if negb (HasPrefix k taskKey) then inr runs
      else if HasSuffix k "manualRuns" || HasSuffix k "latestCompleted"
      then currentlyRunning_loop taskID taskKey c' runs
      else match unmarshalRun v with
           | None => inl ErrInternalTaskServiceError
           | Some r =>
               if negb (N.eqb (run_TaskID r) taskID) then inr runs
               else currentlyRunning_loop taskID taskKey c' (runs ++ [r])
           end
  end.

Definition currentlyRunning (taskID : ID) : Tx (list Run) :=
  bucket ← Bucket taskRunBucket;
  taskKey ← liftE (taskKey taskID);
  c ← Seek bucket taskKey;
  liftE (currentlyRunning_loop taskID taskKey c []).

(** [for _, run := range more { runs = append(runs, run); if len(runs) >=
    limit { return } }]: the runs collected, and whether the loop
    returned from inside. *)
Fixpoint appendUpTo (limit : Z) (runs more : list Run) : list Run * bool :=
  match more with
  | [] => (runs, false)
  | run :: more' =>
      let runs := runs ++ [run] in
      if Z.leb limit (Z.of_nat (List.length runs)) then (runs, true)
      else appendUpTo limit runs more'
  end.

Definition findRuns (filter_Task : ID) (filter_Limit : Z) : Tx (list Run) :=
  let limit := if Z.eqb filter_Limit 0 || Z.ltb TaskMaxPageSize filter_Limit
               then TaskMaxPageSize else filter_Limit in
  manualRuns ← manualRuns filter_Task;
  let (runs, full) := appendUpTo limit [] manualRuns in
  if full then mret runs
  else
    currentlyRunning ← currentlyRunning filter_Task;
    mret (fst (appendUpTo limit runs currentlyRunning)).

Definition FindRuns (filter_Task : ID) (filter_Limit : Z) : Tx (list Run) :=
  View (findRuns filter_Task filter_Limit).

Definition findRunByID (taskID runID : ID) : Tx Run :=
  bucket ← Bucket taskRunBucket;
  key ← liftE (taskRunKey taskID runID);
  runBytes ← Get bucket key;
  match runBytes with
  | inl err =>
      if negb (KVError_eqb err ErrKeyNotFound) then fail ErrRunNotFound
      else fail (ErrUnexpectedTaskBucketErr err)
  | inr runBytes => orFail ErrInternalTaskServiceError (unmarshalRun runBytes)
  end.

Definition FindRunByID (taskID runID : ID) : Tx Run :=
  View (findRunByID taskID runID).

Definition cancelRun (taskID runID : ID) : Tx unit :=
  run ← findRunByID taskID runID;
  let run := set_run_Status "canceled" run in
  bucket ← Bucket taskBucket;
  let runBytes := JRun run in
  runKey ← liftE (taskRunKey taskID runID);
  Put bucket runKey runBytes.

Definition CancelRun (taskID runID : ID) : Tx unit :=
  Update (cancelRun taskID runID).

Definition retryRun (taskID runID : ID) : Tx Run :=
  r ← findRunByID taskID runID;
  id ← IDGenerator_ID;
  let r := set_run_ID id r in
  let r := set_run_Status "" r in
  let r := set_run_StartedAt Blank r in
  let r := set_run_FinishedAt Blank r in
  let r := set_run_RequestedAt Blank r in
  bucket ← Bucket taskRunBucket;
  key ← liftE (taskManualRunKey taskID);
  runsBytes ← Get bucket key;
  match runsBytes with
  | inl err =>
      if negb (KVError_eqb err ErrKeyNotFound) then fail ErrRunNotFound
      else fail (ErrUnexpectedTaskBucketErr err)
  | inr runsBytes =>
      runs ← orFail ErrInternalTaskServiceError (unmarshalRuns runsBytes);
      let runs := runs ++ [r] in
      Put bucket key (JRuns runs);;
      mret r
  end.

Definition RetryRun (taskID runID : ID) : Tx Run :=
  Update (retryRun taskID runID).

Definition forceRun (taskID : ID) (scheduledFor : Z) : Tx Run :=
  let t := time_Unix scheduledFor in
  id ← IDGenerator_ID;
  requested ← time_Now;
  let r := mkRun id taskID "" (Format t) Blank Blank (Format requested) [] in
  bucket ← Bucket taskRunBucket;
  runs ← manualRuns taskID;
  if existsb (fun run => bool_decide (run_ScheduledFor run = run_ScheduledFor r)) runs
  then fail ErrTaskRunAlreadyQueued
  else
    let runs := runs ++ [r] in
    key ← liftE (taskManualRunKey taskID);
    Put bucket key (JRuns runs);;
    mret r.

Definition ForceRun (taskID : ID) (scheduledFor : Z) : Tx Run :=
  Update (forceRun taskID scheduledFor).

Definition nextDueRun (taskID : ID) : Tx Z :=
  task ← findTaskByID taskID;
  latestCompleted ← findLatestCompletedTime taskID;
  latestCompleted ←
    (if IsZero latestCompleted
     then wrapE ErrTaskTimeParse (time_Parse (task_CreatedAt task))
     else mret latestCompleted);
  sch ← orFail ErrTaskTimeParse (cron_Parse (EffectiveCron task));
  let nextScheduled := sch latestCompleted in
  mret (Unix nextScheduled).

Definition NextDueRun (taskID : ID) : Tx Z := View (nextDueRun taskID).

Definition createNextRun (taskID : ID) (now : Z) : Tx RunCreation :=
  task ← findTaskByID taskID;
  mRuns ← manualRuns taskID;
  match mRuns with
  | mRun :: mRuns =>
      b ← Bucket taskRunBucket;
      let mRunsBytes := JRuns mRuns in
      runsKey ← liftE (taskManualRunKey taskID);
      Put b runsKey mRunsBytes;;
      let mRunBytes := JRun mRun in
      runKey ← liftE (taskRunKey taskID (run_ID mRun));
      Put b runKey mRunBytes;;
      schedFor ← liftE (ScheduledForTime mRun);
      reqAt ← liftE (RequestedAtTime mRun);
      nextDue ← nextDueRun taskID;
      mret (mkRunCreation
              (mkQueuedRun taskID (run_ID mRun) (Unix schedFor)
                           (if negb (IsZero reqAt) then Unix reqAt else 0))
              nextDue
              (Nat.ltb 0 (List.length mRuns)))
  | [] =>
      latestCompleted ← wrapE ErrTaskTimeParse (time_Parse (task_CreatedAt task));
      lRun ← findLatestCompleted taskID;
      latestCompleted ←
        match lRun with
        | Some lRun =>
            runTime ← liftE (ScheduledForTime lRun);
            mret (if After runTime latestCompleted then runTime else latestCompleted)
        | None => mret latestCompleted
        end;
      sch ← orFail ErrTaskTimeParse (cron_Parse (EffectiveCron task));
      let nowTime := time_Unix now in
      let nextScheduled := sch latestCompleted in
      let nextScheduledUnix := Unix nextScheduled in
      offset ← orFail ErrTaskTimeParse (offset_Parse (task_Offset task));
      dueAt ← orFail ErrTaskTimeParse (offset nextScheduled);
      if After dueAt nowTime
      then fail (backend_RunNotYetDueError (Unix dueAt))
      else
        id ← IDGenerator_ID;
        let run := mkRun id (task_ID task) (RunStatus_String RunScheduled)
                         (Format nextScheduled) Blank Blank Blank [] in
        b ← Bucket taskRunBucket;
        let runBytes := JRun run in
        runKey ← liftE (taskRunKey taskID (run_ID run));
        Put b runKey runBytes;;
        nextDue ← orFail ErrTaskTimeParse (offset (sch nextScheduled));
        mret (mkRunCreation (mkQueuedRun taskID id nextScheduledUnix 0)
                            (Unix nextDue) false)
  end.

Definition CreateNextRun (taskID : ID) (now : Z) : Tx RunCreation :=
  Update (createNextRun taskID now).

Definition finishRun (taskID runID : ID) : Tx Run :=
  r ← findRunByID taskID runID;
  rTime ← liftE (ScheduledForTime r);
  latestRun ← findLatestCompleted taskID;
  lTime ←
    match latestRun with
    | Some latestRun => liftE (ScheduledForTime latestRun)
    | None => mret zeroTime
    end;
  bucket ← Bucket taskRunBucket;
  (if After rTime lTime
   then
     let rb := JRun r in
     lKey ← liftE (taskLatestCompletedKey taskID);
     Put bucket lKey rb
   else mret tt);;
  key ← liftE (taskRunKey taskID runID);
  Delete bucket key;;
  mret r.

Definition FinishRun (taskID runID : ID) : Tx Run :=
  Update (finishRun taskID runID).

(** [when] is printed with [time.RFC3339Nano] here and in [addRunLog];
    the fraction of a second is not kept. *)
Definition updateRunState (taskID runID : ID) (when : Time) (state : RunStatus) : Tx unit :=
  run ← findRunByID taskID runID;
  let run := set_run_Status (RunStatus_String state) run in
  let run :=
    match state with
    | RunStarted => set_run_StartedAt (Format when) run
    | RunSuccess | RunFail | RunCanceled => set_run_FinishedAt (Format when) run
    | RunScheduled => run
    end in
  b ← Bucket taskRunBucket;
  let runBytes := JRun run in
  runKey ← liftE (taskRunKey taskID (run_ID run));
  Put b runKey runBytes.

Definition UpdateRunState (taskID runID : ID) (when : Time) (state : RunStatus) : Tx unit :=
  Update (updateRunState taskID runID when state).

Definition addRunLog (taskID runID : ID) (when : Time) (log : string) : Tx unit :=
  run ← findRunByID taskID runID;
  let l := mkLog (Format when) log in
  let run := set_run_Log (run_Log run ++ [l]) run in
  b ← Bucket taskRunBucket;
  let runBytes := JRun run in
  runKey ← liftE (taskRunKey taskID (run_ID run));
  Put b runKey runBytes.

Definition AddRunLog (taskID runID : ID) (when : Time) (log : string) : Tx unit :=
  Update (addRunLog taskID runID when log).

(** [for _, run := range runs { ... runBucket.Delete(key) ... }] *)
Fixpoint deleteTask_runs (runBucket : BucketName) (taskID : ID) (runs : list Run) : Tx unit :=
  match runs with
  | [] => mret tt
  | run :: runs =>
      key ← liftE (taskRunKey taskID (run_ID run));
      Delete runBucket key;;
      deleteTask_runs runBucket taskID runs
  end.

Definition deleteTask (id : ID) : Tx unit :=
  taskBucket ← Bucket taskBucket;
  runBucket ← Bucket taskRunBucket;
  indexBucket ← Bucket taskIndexBucket;
  task ← findTaskByID id;
  orgKey ← liftE (taskOrgKey (task_OrganizationID task) (task_ID task));
  Delete indexBucket orgKey;;
  lastCompletedKey ← liftE (taskLatestCompletedKey (task_ID task));
  Delete runBucket lastCompletedKey;;
  runs ← findRuns (task_ID task) 0;
  deleteTask_runs runBucket (task_ID task) runs;;
  key ← liftE (taskKey (task_ID task));
  Delete taskBucket key.

Definition DeleteTask (id : ID) : Tx unit :=
  Update (deleteTask id).

Definition FindTaskByID (id : ID) : Tx Task :=
  View (findTaskByID id).

Definition CurrentlyRunning (taskID : ID) : Tx (list Run) :=
  View (currentlyRunning taskID).

Definition ManualRuns (taskID : ID) : Tx (list Run) :=
  View (manualRuns taskID).

End Service.

(** ** Vocabulary of the properties *)

(** The run bucket of a state. *)
Definition runsOf (st : State) : gmap string Value := taskRunsv1 (store st).

(** What [manualRuns] reads out of the queue key and what
    [findLatestCompleted] reads out of the pointer key: an absent key is
    the empty queue, respectively no pointer. *)
Definition queued (v : option Value) : option (list Run) :=
  match v with
  | None => Some []
  | Some (JRuns l) => Some l
  | Some _ => None
  end.

Definition pointer (v : option Value) : option (option Run) :=
  match v with
  | None => Some None
  | Some (JRun r) => Some (Some r)
  | Some _ => None
  end.

(** The [scheduledFor] that [finishRun] compares against: that of the
    pointer, the zero time if there is none. *)
Definition pointerTime (p : option Run) : option Time :=
  match p with
  | None => Some zeroTime
  | Some latestRun =>
      match run_ScheduledFor latestRun with
      | Stamp t => Some t
      | Blank => None
      end
  end.

(** [run.ScheduledFor == r.ScheduledFor] for a run forced for second [t]. *)
Definition scheduledAt (t : Z) (run : Run) : bool :=
  bool_decide (run_ScheduledFor run = Format (time_Unix t)).

(** The run [forceRun] builds in state [st]. *)
Definition forcedRun (IDGenerator : nat -> ID) (taskID : ID) (t : Z) (st : State) : Run :=
  mkRun (IDGenerator (issued st)) taskID "" (Format (time_Unix t)) Blank Blank
        (Format (clock st)) [].

(** The task record as [findTaskByID] returns it: the stored record with
    the derived latest-completed field filled in. *)
Definition foundTask (task : Task) (lt : Time) : Task :=
  if negb (IsZero lt)
  then set_task_LatestCompleted (Format lt) task
  else set_task_LatestCompleted (task_CreatedAt task) task.

(** The anchor of the due-time computation: the later of the task's
    creation time and the [scheduledFor] of the pointer, if there is one. *)
Definition anchorTime (c : Time) (p : option Run) (lt : Time) : Time :=
  match p with
  | Some _ => if After lt c then lt else c
  | None => c
  end.

(** The run that the scheduled path builds for the tick [next]. *)
Definition scheduledRun (id : ID) (task : Task) (next : Time) : Run :=
  mkRun id (task_ID task) "scheduled" (Format next) Blank Blank Blank [].

(** The ledger once the head [mRun] of the queue has been moved to the
    currently-running partition, [rest] being left in the queue. *)
Definition popped (ek em : string) (mRun : Run) (rest : list Run)
    (runs : gmap string Value) : gmap string Value :=
  <[ek +:+ "/" +:+ em := JRun mRun]> (<[ek +:+ "/manualRuns" := JRuns rest]> runs).

(** The creation result of the manual path. *)
Definition manualCreation (taskID : ID) (mRun : Run) (rest : list Run)
    (sf ra nextDue : Time) : RunCreation :=
  mkRunCreation
    (mkQueuedRun taskID (run_ID mRun) (Unix sf) (if negb (IsZero ra) then Unix ra else 0))
    nextDue (Nat.ltb 0 (List.length rest)).

(** The instants of the years 0000 to 9999, the ones whose
    [time.RFC3339] text [time.Parse] reads back. *)
Definition printable (t : Time) : Prop := -62167219200 <= t <= 253402300799.

(** The limit [findRuns] works with: zero and anything above the maximum
    mean the maximum; a negative limit is taken as it is. *)
Definition pageLimit (filter_Limit : Z) : Z :=
  if Z.eqb filter_Limit 0 || Z.ltb TaskMaxPageSize filter_Limit
  then TaskMaxPageSize else filter_Limit.

(** How many runs the two loops of [findRuns] let through: the limit, and
    one when the limit is negative, the test [len(runs) >= limit] coming
    after the first append. *)
Definition pageSize (filter_Limit : Z) : nat :=
  Z.to_nat (Z.max 1 (pageLimit filter_Limit)).

(** The three terminal states of a run. *)
Definition terminal (state : RunStatus) : bool :=
  match state with
  | RunSuccess | RunFail | RunCanceled => true
  | RunStarted | RunScheduled => false
  end.

(** The same state with another task bucket. *)
Definition withTasks (tb : gmap string Value) (st : State) : State :=
  mkState (with_bucket taskBucket tb (store st)) (issued st) (clock st).

(** ** A concrete service *)

Module Example.

(** A generator that hands out 100, 101, ...; a cron parser that knows
    the 30-second interval; an offset parser that knows the zero offset. *)
Definition ids (n : nat) : ID := N.of_nat (100 + n).

Definition every30s (expr : string) : option (Time -> Time) :=
  if String.eqb expr "@every 30s" then Some (fun t => t + 30) else None.

Definition noOffset (s : string) : option (Time -> option Time) :=
  if String.eqb s "0s" then Some (fun t => Some t) else None.

Definition key1 : string := "0000000000000001".

(** Task 1 of organization 2, created at second 1000. *)
Definition task1 : Task :=
  mkTask 1%N 2%N "cpu" "active" "30s" "" "0s" (Stamp 1000) Blank Blank.

(** The service right after [task1] was created, at second 5000. *)
Definition created : State :=
  mkState (mkStore {[ key1 := JTask task1 ]} ∅
                   {[ "0000000000000002/0000000000000001" := Raw key1 ]})
          0 5000.

(** A started run of task 1, and the service with that run running. *)
Definition run7 : Run :=
  mkRun 7%N 1%N "started" (Stamp 1030) (Stamp 1031) Blank Blank [].

Definition running : State :=
  mkState (mkStore {[ key1 := JTask task1 ]}
                   {[ key1 +:+ "/0000000000000007" := JRun run7 ]}
                   {[ "0000000000000002/0000000000000001" := Raw key1 ]})
          0 5000.

(** A run forced for second 77, and the service with it queued. *)
Definition forced77 : Run :=
  mkRun 9%N 1%N "" (Stamp 77) Blank Blank (Stamp 4000) [].

Definition withQueue : State :=
  mkState (mkStore {[ key1 := JTask task1 ]}
                   {[ key1 +:+ "/manualRuns" := JRuns [forced77] ]}
                   {[ "0000000000000002/0000000000000001" := Raw key1 ]})
          0 5000.

(** No task at all, only a queue under id 1. *)
Definition queueOnly : State :=
  mkState (mkStore ∅ {[ key1 +:+ "/manualRuns" := JRuns [forced77] ]} ∅) 0 5000.

Definition empty : State := mkState (mkStore ∅ ∅ ∅) 0 5000.

End Example.

(** * Properties *)

(** ** Keys *)

Lemma append_length (s1 s2 : string) :
  String.length (s1 +:+ s2) = (String.length s1 + String.length s2)%nat.
Proof. induction s1 as [|a s1 IH]; simpl; [reflexivity | now rewrite IH]. Qed.

Lemma hex_length (w : nat) (n : N) : String.length (hex w n) = w.
Proof.
  revert n. induction w as [|w IH]; intros n; simpl; [reflexivity|].
  rewrite append_length, IH. simpl. lia.
Qed.

Lemma Encode_length (i : ID) (e : string) :
  Encode i = Some e -> String.length e = 16%nat.
Proof.
  unfold Encode. destruct (Valid i); [|discriminate].
  intros H. assert (e = hex 16 i) as -> by congruence. apply hex_length.
Qed.

Lemma Encode_Valid (i : ID) : Valid i = true -> Encode i = Some (hex 16 i).
Proof. unfold Encode. now intros ->. Qed.

(** A run key is never the key of the manual queue or of the
    latest-completed pointer of the same task: an encoded identifier has
    sixteen characters, the reserved names ten and fifteen. *)
Lemma runKey_neq_manualKey (ek er : string) :
  String.length er = 16%nat -> ek +:+ "/" +:+ er ≠ ek +:+ "/manualRuns".
Proof.
  intros Hl Heq. apply String.app_inj in Heq.
  injection Heq as Heq. cbv in Heq. subst er. discriminate Hl.
Qed.

Lemma runKey_neq_latestKey (ek er : string) :
  String.length er = 16%nat -> ek +:+ "/" +:+ er ≠ ek +:+ "/latestCompleted".
Proof.
  intros Hl Heq. apply String.app_inj in Heq.
  injection Heq as Heq. cbv in Heq. subst er. discriminate Hl.
Qed.

Lemma manualKey_neq_latestKey (ek : string) :
  ek +:+ "/manualRuns" ≠ ek +:+ "/latestCompleted".
Proof. intros Heq. apply String.app_inj in Heq. discriminate. Qed.

Arguments hex : simpl never.
Arguments Encode : simpl never.

(** ** Reading the ledger *)

Ltac tx_unfold :=
  unfold mbind, Tx_bind, mret, Tx_ret, fail, liftE, wrapE, orFail, Bucket,
    Get, Put, Delete, time_Now, runsOf in *.
Ltac tx_simp := repeat (progress (tx_unfold; cbn in *)).

Lemma manualRuns_run (taskID : ID) (ek : string) (l : list Run) (st : State) :
  Encode taskID = Some ek ->
  queued (runsOf st !! (ek +:+ "/manualRuns")) = Some l ->
  manualRuns taskID st = (inr l, st).
Proof.
  intros He Hq. unfold manualRuns, taskManualRunKey. rewrite He. tx_unfold. cbn.
  destruct (taskRunsv1 (store st) !! (ek +:+ "/manualRuns")) as [[]|];
    tx_simp; congruence.
Qed.

Lemma findLatestCompleted_run (taskID : ID) (ek : string) (p : option Run) (st : State) :
  Encode taskID = Some ek ->
  pointer (runsOf st !! (ek +:+ "/latestCompleted")) = Some p ->
  findLatestCompleted taskID st = (inr p, st).
Proof.
  intros He Hq. unfold findLatestCompleted, taskLatestCompletedKey. rewrite He.
  tx_unfold. cbn.
  destruct (taskRunsv1 (store st) !! (ek +:+ "/latestCompleted")) as [[]|];
    tx_simp; congruence.
Qed.

Lemma findRunByID_found (taskID runID : ID) (ek er : string) (r : Run) (st : State) :
  Encode taskID = Some ek -> Encode runID = Some er ->
  runsOf st !! (ek +:+ "/" +:+ er) = Some (JRun r) ->
  findRunByID taskID runID st = (inr r, st).
Proof.
  intros He Hr Hq. unfold findRunByID, taskRunKey. rewrite He, Hr.
  tx_unfold. cbn. now rewrite Hq.
Qed.

Lemma findRunByID_missing (taskID runID : ID) (ek er : string) (st : State) :
  Encode taskID = Some ek -> Encode runID = Some er ->
  runsOf st !! (ek +:+ "/" +:+ er) = None ->
  findRunByID taskID runID st = (inl (ErrUnexpectedTaskBucketErr ErrKeyNotFound), st).
Proof.
  intros He Hr Hq. unfold findRunByID, taskRunKey. rewrite He, Hr.
  tx_unfold. cbn. now rewrite Hq.
Qed.

(** ** ForceRun *)

Lemma existsb_scheduledAt (t : Z) (l : list Run) :
  existsb (scheduledAt t) l = true <-> Exists (fun run => run_ScheduledFor run = Stamp t) l.
Proof.
  induction l as [|x l IH]; simpl.
  - split; [discriminate | intros H; inversion H].
  - rewrite Exists_cons, <- IH, orb_true_iff. unfold scheduledAt at 1.
    rewrite bool_decide_eq_true. reflexivity.
Qed.

Lemma filter_existsb_length {A} (f : A -> bool) (l : list A) :
  existsb f l = true -> (1 <= List.length (List.filter f l))%nat.
Proof.
  induction l as [|x l IH]; cbn; [discriminate|].
  destruct (f x); cbn; [lia | exact IH].
Qed.

Lemma filter_scheduledAt_none (t : Z) (l : list Run) :
  existsb (scheduledAt t) l = false -> List.filter (scheduledAt t) l = [].
Proof.
  induction l as [|x l IH]; simpl; [reflexivity|].
  destruct (scheduledAt t x); simpl; [discriminate | exact IH].
Qed.

Section ForceRun.

Variable IDGenerator : nat -> ID.

Lemma forceRun_queued (taskID : ID) (ek : string) (t : Z) (l : list Run) (st : State) :
  Encode taskID = Some ek ->
  queued (runsOf st !! (ek +:+ "/manualRuns")) = Some l ->
  existsb (scheduledAt t) l = true ->
  forceRun IDGenerator taskID t st
  = (inl ErrTaskRunAlreadyQueued, mkState (store st) (S (issued st)) (clock st)).
Proof.
  intros He Hq Hex. unfold forceRun, IDGenerator_ID, time_Now.
  unfold mbind at 1 2 3 4, Tx_bind at 1 2 3 4, Bucket, mret, Tx_ret.
  rewrite (manualRuns_run taskID ek l) by (cbn; assumption).
  cbn. fold (scheduledAt t). now rewrite Hex.
Qed.

Lemma forceRun_fresh (taskID : ID) (ek : string) (t : Z) (l : list Run) (st : State) :
  Encode taskID = Some ek ->
  queued (runsOf st !! (ek +:+ "/manualRuns")) = Some l ->
  existsb (scheduledAt t) l = false ->
  forceRun IDGenerator taskID t st
  = (inr (forcedRun IDGenerator taskID t st),
     mkState (with_bucket taskRunBucket
                (<[ek +:+ "/manualRuns" := JRuns (l ++ [forcedRun IDGenerator taskID t st])]>
                   (runsOf st)) (store st))
             (S (issued st)) (clock st)).
Proof.
  intros He Hq Hex. unfold forceRun, IDGenerator_ID, time_Now.
  unfold mbind at 1 2 3 4, Tx_bind at 1 2 3 4, Bucket, mret, Tx_ret.
  rewrite (manualRuns_run taskID ek l) by (cbn; assumption).
  cbn. fold (scheduledAt t). rewrite Hex.
  unfold taskManualRunKey. rewrite He. tx_simp. reflexivity.
Qed.

End ForceRun.

(** C6, as amended.  [ForceRun(T, t)] on a task whose manual queue is
    [l]: if [l] holds an entry scheduled for [t], the call fails with the
    conflict error [ErrTaskRunAlreadyQueued] and the store is left as it
    was; otherwise it succeeds and the queue becomes [l] followed by
    exactly one new run with [requestedAt = now] and [scheduledFor = t],
    every other key being untouched.  After two [ForceRun(T, t)] calls the
    second has failed with that error in every case, and the queue holds
    as many runs scheduled for [t] as [l] did, or one if [l] had none: so
    exactly one whenever [l] held at most one, while several entries for
    [t] that were in [l] (clones queued by [RetryRun], which makes no such
    check) stay as they are. *)
Theorem ForceRun_dedup (IDGenerator : nat -> ID) (taskID : ID) (ek : string)
    (t : Z) (l : list Run) (st : State) :
  Encode taskID = Some ek ->
  queued (runsOf st !! (ek +:+ "/manualRuns")) = Some l ->
  let r := forcedRun IDGenerator taskID t st in
  let st1 := snd (ForceRun IDGenerator taskID t st) in
  let st2 := snd (ForceRun IDGenerator taskID t st1) in
  (Exists (fun run => run_ScheduledFor run = Stamp t) l ->
     fst (ForceRun IDGenerator taskID t st) = inl ErrTaskRunAlreadyQueued
     /\ ErrorCode ErrTaskRunAlreadyQueued = Some EConflict
     /\ store st1 = store st)
  /\ (~ Exists (fun run => run_ScheduledFor run = Stamp t) l ->
     fst (ForceRun IDGenerator taskID t st) = inr r
     /\ run_RequestedAt r = Format (clock st)
     /\ run_ScheduledFor r = Stamp t
     /\ runsOf st1 !! (ek +:+ "/manualRuns") = Some (JRuns (l ++ [r]))
     /\ (forall k, k ≠ ek +:+ "/manualRuns" -> runsOf st1 !! k = runsOf st !! k)
     /\ tasksv1 (store st1) = tasksv1 (store st)
     /\ taskIndexsv1 (store st1) = taskIndexsv1 (store st)
     /\ fst (ForceRun IDGenerator taskID t st1) = inl ErrTaskRunAlreadyQueued
     /\ runsOf st2 !! (ek +:+ "/manualRuns") = Some (JRuns (l ++ [r]))
     /\ List.length (List.filter (scheduledAt t) (l ++ [r])) = 1%nat)
  /\ (fst (ForceRun IDGenerator taskID t st1) = inl ErrTaskRunAlreadyQueued
      /\ exists q,
           queued (runsOf st2 !! (ek +:+ "/manualRuns")) = Some q
           /\ List.length (List.filter (scheduledAt t) q)
              = Nat.max 1 (List.length (List.filter (scheduledAt t) l))
           /\ ((List.length (List.filter (scheduledAt t) l) <= 1)%nat ->
               List.length (List.filter (scheduledAt t) q) = 1%nat)).
Proof.
  intros He Hq r st1 st2. split; [|split].
  - intros Hex. apply existsb_scheduledAt in Hex.
    subst st1. unfold ForceRun, Update.
    rewrite (forceRun_queued IDGenerator taskID ek t l st He Hq Hex).
    repeat split.
  - intros Hex.
    assert (Hf : existsb (scheduledAt t) l = false).
    { destruct (existsb (scheduledAt t) l) eqn:E; [|reflexivity].
      apply existsb_scheduledAt in E. contradiction. }
    assert (H1 : ForceRun IDGenerator taskID t st
                 = (inr r, mkState (with_bucket taskRunBucket
                       (<[ek +:+ "/manualRuns" := JRuns (l ++ [r])]> (runsOf st)) (store st))
                       (S (issued st)) (clock st))).
    { unfold ForceRun, Update.
      now rewrite (forceRun_fresh IDGenerator taskID ek t l st He Hq Hf). }
    assert (Hst1 : runsOf st1 !! (ek +:+ "/manualRuns") = Some (JRuns (l ++ [r]))).
    { subst st1. rewrite H1. unfold runsOf. cbn. apply lookup_insert_eq. }
    assert (Hin : existsb (scheduledAt t) (l ++ [r]) = true).
    { rewrite existsb_app. cbn. unfold scheduledAt at 2. cbn.
      rewrite bool_decide_eq_true_2 by reflexivity. now rewrite orb_true_r. }
    assert (H2 : ForceRun IDGenerator taskID t st1
                 = (inl ErrTaskRunAlreadyQueued,
                    mkState (store st1) (S (issued st1)) (clock st1))).
    { unfold ForceRun, Update.
      rewrite (forceRun_queued IDGenerator taskID ek t (l ++ [r]) st1 He); auto.
      now rewrite Hst1. }
    split; [now rewrite H1|]. split; [reflexivity|]. split; [reflexivity|].
    split; [exact Hst1|].
    split. { intros k Hk. subst st1. rewrite H1. unfold runsOf. cbn.
             now apply lookup_insert_ne. }
    split; [subst st1; now rewrite H1|]. split; [subst st1; now rewrite H1|].
    split; [now rewrite H2|].
    split. { subst st2. rewrite H2. exact Hst1. }
    rewrite List.filter_app, (filter_scheduledAt_none t l Hf). cbn.
    unfold scheduledAt. cbn. now rewrite bool_decide_eq_true_2.
  - destruct (existsb (scheduledAt t) l) eqn:E.
    + assert (H1 : ForceRun IDGenerator taskID t st
                   = (inl ErrTaskRunAlreadyQueued,
                      mkState (store st) (S (issued st)) (clock st))).
      { unfold ForceRun, Update.
        now rewrite (forceRun_queued IDGenerator taskID ek t l st He Hq E). }
      assert (Hq1 : queued (runsOf st1 !! (ek +:+ "/manualRuns")) = Some l).
      { subst st1. rewrite H1. exact Hq. }
      assert (H2 : ForceRun IDGenerator taskID t st1
                   = (inl ErrTaskRunAlreadyQueued,
                      mkState (store st1) (S (issued st1)) (clock st1))).
      { unfold ForceRun, Update.
        now rewrite (forceRun_queued IDGenerator taskID ek t l st1 He Hq1 E). }
      split; [now rewrite H2|]. exists l.
      split; [subst st2; rewrite H2; exact Hq1|].
      pose proof (filter_existsb_length (scheduledAt t) l E). split; lia.
    + assert (H1 : ForceRun IDGenerator taskID t st
                   = (inr r, mkState (with_bucket taskRunBucket
                         (<[ek +:+ "/manualRuns" := JRuns (l ++ [r])]> (runsOf st))
                         (store st))
                         (S (issued st)) (clock st))).
      { unfold ForceRun, Update.
        now rewrite (forceRun_fresh IDGenerator taskID ek t l st He Hq E). }
      assert (Hq1 : queued (runsOf st1 !! (ek +:+ "/manualRuns")) = Some (l ++ [r])).
      { subst st1. rewrite H1. unfold runsOf. cbn. now rewrite lookup_insert_eq. }
      assert (Hin : existsb (scheduledAt t) (l ++ [r]) = true).
      { rewrite existsb_app. cbn. unfold scheduledAt at 2. cbn.
        rewrite bool_decide_eq_true_2 by reflexivity. now rewrite orb_true_r. }
      assert (H2 : ForceRun IDGenerator taskID t st1
                   = (inl ErrTaskRunAlreadyQueued,
                      mkState (store st1) (S (issued st1)) (clock st1))).
      { unfold ForceRun, Update.
        now rewrite (forceRun_queued IDGenerator taskID ek t (l ++ [r]) st1 He Hq1 Hin). }
      split; [now rewrite H2|]. exists (l ++ [r]).
      split; [subst st2; rewrite H2; exact Hq1|].
      rewrite List.filter_app, (filter_scheduledAt_none t l E). cbn.
      unfold scheduledAt. cbn. rewrite bool_decide_eq_true_2 by reflexivity.
      cbn. split; reflexivity.
Qed.

(** ** FinishRun *)

Lemma finishRun_run (taskID runID : ID) (ek er : string) (r : Run) (rt lt : Time)
    (p : option Run) (st : State) :
  Encode taskID = Some ek -> Encode runID = Some er ->
  runsOf st !! (ek +:+ "/" +:+ er) = Some (JRun r) ->
  run_ScheduledFor r = Stamp rt ->
  pointer (runsOf st !! (ek +:+ "/latestCompleted")) = Some p ->
  pointerTime p = Some lt ->
  finishRun taskID runID st
  = (inr r,
     mkState (with_bucket taskRunBucket
                (delete (ek +:+ "/" +:+ er)
                   (if After rt lt
                    then <[ek +:+ "/latestCompleted" := JRun r]> (runsOf st)
                    else runsOf st))
                (store st))
             (issued st) (clock st)).
Proof.
  intros He Hr Hrun Hrt Hp Hlt. unfold finishRun.
  unfold mbind at 1, Tx_bind at 1.
  rewrite (findRunByID_found taskID runID ek er r st He Hr Hrun). cbv beta iota.
  unfold ScheduledForTime. rewrite Hrt.
  unfold mbind at 1 2, Tx_bind at 1 2. cbn [time_Parse liftE mret Tx_ret].
  rewrite (findLatestCompleted_run taskID ek p st He Hp). cbv beta iota.
  unfold taskLatestCompletedKey, taskRunKey. rewrite He, Hr.
  destruct p as [lr|]; cbn in Hlt.
  - destruct (run_ScheduledFor lr); [discriminate|].
    injection Hlt as ->. tx_simp. destruct (After rt lt); tx_simp.
    + reflexivity.
    + destruct st as [[a b c] n k]; reflexivity.
  - injection Hlt as <-. tx_simp. destruct (After rt zeroTime); tx_simp.
    + reflexivity.
    + destruct st as [[a b c] n k]; reflexivity.
Qed.

(** C3. For a run [r] stored in the currently-running partition of task
    [T], [FinishRun(T, R)] returns [r] and removes its key; if the
    [scheduledFor] of [r] is strictly after that of the latest-completed
    pointer (the zero time when there is no pointer) the pointer becomes
    [r], otherwise the pointer is as before; every other key of the ledger
    and the other buckets are untouched.  Nothing is asked of the status of
    [r]: the statement holds for success, failed, canceled and any other. *)
Theorem FinishRun_latest_pointer (taskID runID : ID) (ek er : string) (r : Run)
    (rt lt : Time) (p : option Run) (st : State) :
  Encode taskID = Some ek -> Encode runID = Some er ->
  runsOf st !! (ek +:+ "/" +:+ er) = Some (JRun r) ->
  run_ScheduledFor r = Stamp rt ->
  pointer (runsOf st !! (ek +:+ "/latestCompleted")) = Some p ->
  pointerTime p = Some lt ->
  let st' := snd (FinishRun taskID runID st) in
  fst (FinishRun taskID runID st) = inr r
  /\ runsOf st' !! (ek +:+ "/" +:+ er) = None
  /\ (lt < rt -> runsOf st' !! (ek +:+ "/latestCompleted") = Some (JRun r))
  /\ (rt <= lt -> runsOf st' !! (ek +:+ "/latestCompleted")
                  = runsOf st !! (ek +:+ "/latestCompleted"))
  /\ (forall k, k ≠ ek +:+ "/" +:+ er -> k ≠ ek +:+ "/latestCompleted" ->
        runsOf st' !! k = runsOf st !! k)
  /\ tasksv1 (store st') = tasksv1 (store st)
  /\ taskIndexsv1 (store st') = taskIndexsv1 (store st).
Proof.
  intros He Hr Hrun Hrt Hp Hlt st'. subst st'. unfold FinishRun, Update.
  rewrite (finishRun_run taskID runID ek er r rt lt p st He Hr Hrun Hrt Hp Hlt).
  pose proof (runKey_neq_latestKey ek er (Encode_length _ _ Hr)) as Hne.
  unfold After, runsOf. cbn.
  split; [reflexivity|]. split; [apply lookup_delete_eq|].
  split; [|split; [|split; [|split; reflexivity]]].
  - intros Hlt'. apply Z.ltb_lt in Hlt'. rewrite Hlt'.
    rewrite lookup_delete_ne by exact Hne. apply lookup_insert_eq.
  - intros Hle. apply Z.ltb_ge in Hle. rewrite Hle.
    now rewrite lookup_delete_ne by exact Hne.
  - intros k Hk1 Hk2. rewrite lookup_delete_ne by congruence.
    destruct (lt <? rt); [|reflexivity]. now rewrite lookup_insert_ne by congruence.
Qed.

(** ** Running a transaction step by step *)

Lemma bind_run {A B} (m : Tx A) (f : A -> Tx B) (st st' : State) (a : A) :
  m st = (inr a, st') -> (m ≫= f) st = f a st'.
Proof. intros H. unfold mbind, Tx_bind. now rewrite H. Qed.

Lemma bind_fail {A B} (m : Tx A) (f : A -> Tx B) (st st' : State) (e : Error) :
  m st = (inl e, st') -> (m ≫= f) st = (inl e, st').
Proof. intros H. unfold mbind, Tx_bind. now rewrite H. Qed.

Lemma Get_run (b : BucketName) (key : string) (st : State) :
  Get b key st
  = (inr (match bucket b (store st) !! key with
          | Some v => inr v
          | None => inl ErrKeyNotFound
          end), st).
Proof. unfold Get. now destruct (bucket b (store st) !! key). Qed.

Ltac tx_step H := rewrite (bind_run _ _ _ _ _ H); cbv beta.
Ltac tx_prim := erewrite bind_run by reflexivity; cbv beta.

(** ** Reading the task *)

Lemma findLatestCompletedTime_run (taskID : ID) (ek : string) (p : option Run)
    (lt : Time) (st : State) :
  Encode taskID = Some ek ->
  pointer (runsOf st !! (ek +:+ "/latestCompleted")) = Some p ->
  pointerTime p = Some lt ->
  findLatestCompletedTime taskID st = (inr lt, st).
Proof.
  intros He Hp Hlt. unfold findLatestCompletedTime.
  tx_step (findLatestCompleted_run taskID ek p st He Hp).
  destruct p as [lr|]; cbn in Hlt.
  - unfold ScheduledForTime. destruct (run_ScheduledFor lr); [discriminate|].
    injection Hlt as ->. reflexivity.
  - injection Hlt as <-. reflexivity.
Qed.

Lemma findTaskByID_run (taskID : ID) (ek : string) (task : Task) (p : option Run)
    (lt : Time) (st : State) :
  Encode taskID = Some ek ->
  tasksv1 (store st) !! ek = Some (JTask task) ->
  task_ID task = taskID ->
  pointer (runsOf st !! (ek +:+ "/latestCompleted")) = Some p ->
  pointerTime p = Some lt ->
  findTaskByID taskID st = (inr (foundTask task lt), st).
Proof.
  intros He Ht Hid Hp Hlt. unfold findTaskByID, taskKey. rewrite He.
  tx_prim. tx_prim.
  assert (HG : Get taskBucket ek st = (inr (inr (JTask task)), st)).
  { unfold Get. cbn. now rewrite Ht. }
  tx_step HG. tx_prim. rewrite Hid.
  tx_step (findLatestCompletedTime_run taskID ek p lt st He Hp Hlt).
  unfold foundTask. destruct (negb (IsZero lt)); reflexivity.
Qed.

Lemma foundTask_fields (task : Task) (lt : Time) :
  task_ID (foundTask task lt) = task_ID task
  /\ task_CreatedAt (foundTask task lt) = task_CreatedAt task
  /\ task_Offset (foundTask task lt) = task_Offset task
  /\ EffectiveCron (foundTask task lt) = EffectiveCron task.
Proof. unfold foundTask. destruct (negb (IsZero lt)); repeat split. Qed.

Section NextRun.

Variable IDGenerator : nat -> ID.
Variable cron_Parse : string -> option (Time -> Time).
Variable offset_Parse : string -> option (Time -> option Time).

Lemma nextDueRun_run (taskID : ID) (ek : string) (task : Task) (p : option Run)
    (lt c : Time) (sch : Time -> Time) (st : State) :
  Encode taskID = Some ek ->
  tasksv1 (store st) !! ek = Some (JTask task) ->
  task_ID task = taskID ->
  pointer (runsOf st !! (ek +:+ "/latestCompleted")) = Some p ->
  pointerTime p = Some lt ->
  task_CreatedAt task = Stamp c ->
  cron_Parse (EffectiveCron task) = Some sch ->
  nextDueRun cron_Parse taskID st = (inr (sch (if IsZero lt then c else lt)), st).
Proof.
  intros He Ht Hid Hp Hlt Hc Hsch. unfold nextDueRun.
  tx_step (findTaskByID_run taskID ek task p lt st He Ht Hid Hp Hlt).
  tx_step (findLatestCompletedTime_run taskID ek p lt st He Hp Hlt).
  destruct (foundTask_fields task lt) as (_ & -> & _ & ->). rewrite Hc, Hsch.
  destruct (IsZero lt); reflexivity.
Qed.

Lemma createNextRun_manual (taskID : ID) (now : Z) (ek em : string) (task : Task)
    (p : option Run) (lt c sf ra : Time) (sch : Time -> Time)
    (mRun : Run) (rest : list Run) (st : State) :
  Encode taskID = Some ek ->
  tasksv1 (store st) !! ek = Some (JTask task) ->
  task_ID task = taskID ->
  pointer (runsOf st !! (ek +:+ "/latestCompleted")) = Some p ->
  pointerTime p = Some lt ->
  task_CreatedAt task = Stamp c ->
  cron_Parse (EffectiveCron task) = Some sch ->
  queued (runsOf st !! (ek +:+ "/manualRuns")) = Some (mRun :: rest) ->
  Encode (run_ID mRun) = Some em ->
  run_ScheduledFor mRun = Stamp sf ->
  RequestedAtTime mRun = inr ra ->
  createNextRun IDGenerator cron_Parse offset_Parse taskID now st
  = (inr (manualCreation taskID mRun rest sf ra (sch (if IsZero lt then c else lt))),
     mkState (with_bucket taskRunBucket (popped ek em mRun rest (runsOf st)) (store st))
             (issued st) (clock st)).
Proof.
  intros He Ht Hid Hp Hlt Hc Hsch Hq Hem Hsf Hra. unfold createNextRun.
  tx_step (findTaskByID_run taskID ek task p lt st He Ht Hid Hp Hlt).
  tx_step (manualRuns_run taskID ek (mRun :: rest) st He Hq).
  unfold taskManualRunKey, taskRunKey, ScheduledForTime.
  rewrite He, Hem, Hsf, Hra.
  do 7 tx_prim.
  pose proof (Encode_length _ _ Hem) as Hl.
  erewrite bind_run; [reflexivity|].
  apply (nextDueRun_run taskID ek task p lt c sch); auto; unfold runsOf, popped; cbn.
  rewrite !lookup_insert_ne; [exact Hp| apply manualKey_neq_latestKey |].
  now apply runKey_neq_latestKey.
Qed.

Section Scheduled.

Variables (taskID : ID) (now : Z) (ek : string) (task : Task)
          (p : option Run) (lt c due : Time) (sch : Time -> Time)
          (off : Time -> option Time) (st : State).

Hypothesis He : Encode taskID = Some ek.
Hypothesis Ht : tasksv1 (store st) !! ek = Some (JTask task).
Hypothesis Hid : task_ID task = taskID.
Hypothesis Hp : pointer (runsOf st !! (ek +:+ "/latestCompleted")) = Some p.
Hypothesis Hlt : pointerTime p = Some lt.
Hypothesis Hc : task_CreatedAt task = Stamp c.
Hypothesis Hsch : cron_Parse (EffectiveCron task) = Some sch.
Hypothesis Hoff : offset_Parse (task_Offset task) = Some off.
Hypothesis Hq : queued (runsOf st !! (ek +:+ "/manualRuns")) = Some [].
Hypothesis Hdue : off (sch (anchorTime c p lt)) = Some due.

Lemma createNextRun_not_due :
  now < due ->
  createNextRun IDGenerator cron_Parse offset_Parse taskID now st
  = (inl (backend_RunNotYetDueError due), st).
Proof.
  intros Hnow. unfold createNextRun.
  tx_step (findTaskByID_run taskID ek task p lt st He Ht Hid Hp Hlt).
  tx_step (manualRuns_run taskID ek [] st He Hq).
  destruct (foundTask_fields task lt) as (_ & -> & -> & ->).
  rewrite Hc, Hsch, Hoff. tx_prim.
  tx_step (findLatestCompleted_run taskID ek p st He Hp).
  assert (Ha : (match p with
                | Some lRun =>
                    runTime ← liftE (ScheduledForTime lRun);
                    mret (if After runTime c then runTime else c)
                | None => mret c
                end) st = (inr (anchorTime c p lt), st)).
  { destruct p as [lr|]; cbn in Hlt |- *; [|reflexivity].
    unfold ScheduledForTime. destruct (run_ScheduledFor lr); [discriminate|].
    injection Hlt as ->. reflexivity. }
  tx_step Ha. do 2 tx_prim. rewrite Hdue. tx_prim.
  unfold After, time_Unix, Unix. apply Z.ltb_lt in Hnow. now rewrite Hnow.
Qed.

Lemma createNextRun_due (ei : string) (nextDue : Time) :
  due <= now ->
  Encode (IDGenerator (issued st)) = Some ei ->
  off (sch (sch (anchorTime c p lt))) = Some nextDue ->
  createNextRun IDGenerator cron_Parse offset_Parse taskID now st
  = (inr (mkRunCreation (mkQueuedRun taskID (IDGenerator (issued st)) (Unix (sch (anchorTime c p lt))) 0)
                        (Unix nextDue) false),
     mkState (with_bucket taskRunBucket
                (<[ek +:+ "/" +:+ ei :=
                     JRun (scheduledRun (IDGenerator (issued st)) task (sch (anchorTime c p lt)))]>
                   (runsOf st))
                (store st))
             (S (issued st)) (clock st)).
Proof.
  intros Hnow Hei Hnd. unfold createNextRun.
  tx_step (findTaskByID_run taskID ek task p lt st He Ht Hid Hp Hlt).
  tx_step (manualRuns_run taskID ek [] st He Hq).
  destruct (foundTask_fields task lt) as (-> & -> & -> & ->).
  rewrite Hc, Hsch, Hoff. tx_prim.
  tx_step (findLatestCompleted_run taskID ek p st He Hp).
  assert (Ha : (match p with
                | Some lRun =>
                    runTime ← liftE (ScheduledForTime lRun);
                    mret (if After runTime c then runTime else c)
                | None => mret c
                end) st = (inr (anchorTime c p lt), st)).
  { destruct p as [lr|]; cbn in Hlt |- *; [|reflexivity].
    unfold ScheduledForTime. destruct (run_ScheduledFor lr); [discriminate|].
    injection Hlt as ->. reflexivity. }
    tx_step Ha. do 2 tx_prim. rewrite Hdue. tx_prim.
  unfold After, time_Unix. apply Z.ltb_ge in Hnow. rewrite Hnow.
  unfold IDGenerator_ID. tx_prim. tx_prim.
  unfold taskRunKey. cbn [run_ID]. rewrite He, Hei, Hnd.
  do 3 tx_prim. reflexivity.
Qed.

End Scheduled.

End NextRun.

(** C5. When the manual queue of task [T] is [mRun :: rest],
    [CreateNextRun(T, now)] succeeds for every [now], hence also when a
    scheduled tick is due: the queue becomes [rest], [mRun] itself (status
    and all other fields as queued) is stored in the currently-running
    partition under its own id, no other key changes and no identifier is
    drawn from the generator, so no run is fabricated.  The result carries
    the id of [mRun], its [scheduledFor] as [Now], whether [rest] is
    non-empty, and the next tick of the task's schedule after the
    latest-completed time (the creation time if nothing completed), with no
    offset applied. *)
Theorem CreateNextRun_manual_priority (IDGenerator : nat -> ID)
    (cron_Parse : string -> option (Time -> Time))
    (offset_Parse : string -> option (Time -> option Time))
    (taskID : ID) (now : Z) (ek em : string) (task : Task)
    (p : option Run) (lt c sf ra : Time) (sch : Time -> Time)
    (mRun : Run) (rest : list Run) (st : State) :
  Encode taskID = Some ek ->
  tasksv1 (store st) !! ek = Some (JTask task) ->
  task_ID task = taskID ->
  pointer (runsOf st !! (ek +:+ "/latestCompleted")) = Some p ->
  pointerTime p = Some lt ->
  task_CreatedAt task = Stamp c ->
  cron_Parse (EffectiveCron task) = Some sch ->
  queued (runsOf st !! (ek +:+ "/manualRuns")) = Some (mRun :: rest) ->
  Encode (run_ID mRun) = Some em ->
  run_ScheduledFor mRun = Stamp sf ->
  RequestedAtTime mRun = inr ra ->
  let res := CreateNextRun IDGenerator cron_Parse offset_Parse taskID now st in
  let st' := snd res in
  (exists rc, fst res = inr rc
     /\ qr_TaskID (rc_Created rc) = taskID
     /\ qr_RunID (rc_Created rc) = run_ID mRun
     /\ qr_Now (rc_Created rc) = sf
     /\ rc_HasQueue rc = Nat.ltb 0 (List.length rest)
     /\ rc_NextDue rc = sch (if IsZero lt then c else lt))
  /\ runsOf st' !! (ek +:+ "/manualRuns") = Some (JRuns rest)
  /\ runsOf st' !! (ek +:+ "/" +:+ em) = Some (JRun mRun)
  /\ (forall k, k ≠ ek +:+ "/manualRuns" -> k ≠ ek +:+ "/" +:+ em ->
        runsOf st' !! k = runsOf st !! k)
  /\ issued st' = issued st
  /\ tasksv1 (store st') = tasksv1 (store st)
  /\ taskIndexsv1 (store st') = taskIndexsv1 (store st).
Proof.
  intros He Ht Hid Hp Hlt Hc Hsch Hq Hem Hsf Hra res st'.
  subst st' res. unfold CreateNextRun, Update.
  rewrite (createNextRun_manual IDGenerator cron_Parse offset_Parse taskID now ek em
             task p lt c sf ra sch mRun rest st He Ht Hid Hp Hlt Hc Hsch Hq Hem Hsf Hra).
  pose proof (runKey_neq_manualKey ek em (Encode_length _ _ Hem)) as Hne.
  unfold runsOf, popped. cbn.
  split; [eexists; split; [reflexivity|repeat split]|].
  split; [rewrite lookup_insert_ne by exact Hne; apply lookup_insert_eq|].
  split; [apply lookup_insert_eq|].
  split; [|repeat split].
  intros k Hk1 Hk2. now rewrite !lookup_insert_ne by congruence.
Qed.

Lemma State_eta (st : State) : mkState (store st) (issued st) (clock st) = st.
Proof. now destruct st. Qed.

Lemma pointer_absent (runs : gmap string Value) (k : string) :
  runs !! k = None -> pointer (runs !! k) = Some None.
Proof. now intros ->. Qed.

(** C4. A task created at [T0] (not before the zero time) whose schedule
    ticks every 30 seconds with no offset, with an empty manual queue and
    no run completed yet.  [CreateNextRun(T, T0+30)] stores one run with
    [scheduledFor = T0+30] and status [scheduled] and reports [T0+60] as
    next due; [FinishRun] on that run makes it the latest-completed pointer
    and removes it from the running partition; [CreateNextRun(T, T0+65)]
    then stores exactly one new run, with [scheduledFor = T0+60].  And for
    any task with an empty manual queue, whatever its schedule, offset and
    pointer: when the computed [dueAt] is after [now], [CreateNextRun]
    returns the not-yet-due error carrying [dueAt] and the state is left
    as it was. *)
Theorem CreateNextRun_scenario (IDGenerator : nat -> ID)
    (cron_Parse : string -> option (Time -> Time))
    (offset_Parse : string -> option (Time -> option Time))
    (taskID : ID) (ek : string) (task : Task) (st : State) :
  Encode taskID = Some ek ->
  tasksv1 (store st) !! ek = Some (JTask task) ->
  task_ID task = taskID ->
  queued (runsOf st !! (ek +:+ "/manualRuns")) = Some [] ->
  (forall (T0 : Time) (sch : Time -> Time) (off : Time -> option Time) (e1 e2 : string),
      task_CreatedAt task = Stamp T0 -> zeroTime <= T0 ->
      cron_Parse (EffectiveCron task) = Some sch -> (forall x, sch x = x + 30) ->
      offset_Parse (task_Offset task) = Some off -> (forall x, off x = Some x) ->
      runsOf st !! (ek +:+ "/latestCompleted") = None ->
      Encode (IDGenerator (issued st)) = Some e1 ->
      Encode (IDGenerator (S (issued st))) = Some e2 ->
      let id1 := IDGenerator (issued st) in
      let id2 := IDGenerator (S (issued st)) in
      let r1 := scheduledRun id1 task (T0 + 30) in
      let r2 := scheduledRun id2 task (T0 + 60) in
      let create := CreateNextRun IDGenerator cron_Parse offset_Parse taskID in
      let st1 := snd (create (T0 + 30) st) in
      let st2 := snd (FinishRun taskID id1 st1) in
      let st3 := snd (create (T0 + 65) st2) in
      fst (create (T0 + 30) st)
        = inr (mkRunCreation (mkQueuedRun taskID id1 (T0 + 30) 0) (T0 + 60) false)
      /\ run_ScheduledFor r1 = Stamp (T0 + 30) /\ run_Status r1 = "scheduled"
      /\ runsOf st1 = <[ek +:+ "/" +:+ e1 := JRun r1]> (runsOf st)
      /\ fst (FinishRun taskID id1 st1) = inr r1
      /\ runsOf st2 !! (ek +:+ "/latestCompleted") = Some (JRun r1)
      /\ runsOf st2 !! (ek +:+ "/" +:+ e1) = None
      /\ fst (create (T0 + 65) st2)
           = inr (mkRunCreation (mkQueuedRun taskID id2 (T0 + 60) 0) (T0 + 90) false)
      /\ run_ScheduledFor r2 = Stamp (T0 + 60)
      /\ runsOf st3 = <[ek +:+ "/" +:+ e2 := JRun r2]> (runsOf st2))
  /\ (forall (p : option Run) (lt c due : Time) (sch : Time -> Time)
             (off : Time -> option Time) (now : Z),
      pointer (runsOf st !! (ek +:+ "/latestCompleted")) = Some p ->
      pointerTime p = Some lt ->
      task_CreatedAt task = Stamp c ->
      cron_Parse (EffectiveCron task) = Some sch ->
      offset_Parse (task_Offset task) = Some off ->
      off (sch (anchorTime c p lt)) = Some due ->
      now < due ->
      CreateNextRun IDGenerator cron_Parse offset_Parse taskID now st
      = (inl (backend_RunNotYetDueError due), st)).
Proof.
  intros He Ht Hid Hq. split.
  - intros T0 sch off e1 e2 Hc Hz Hsch Hs30 Hoff Hoff0 Hlc He1 He2
           id1 id2 r1 r2 create st1 st2 st3.
    pose proof (Encode_length _ _ He1) as Hl1.
    pose proof (Encode_length _ _ He2) as Hl2.
    (* first creation *)
    assert (H1 : create (T0 + 30) st
                 = (inr (mkRunCreation (mkQueuedRun taskID id1 (T0 + 30) 0) (T0 + 60) false),
                    mkState (with_bucket taskRunBucket
                               (<[ek +:+ "/" +:+ e1 := JRun r1]> (runsOf st)) (store st))
                            (S (issued st)) (clock st))).
    { subst create. unfold CreateNextRun, Update.
      rewrite (createNextRun_due IDGenerator cron_Parse offset_Parse taskID (T0 + 30) ek task
                 None zeroTime T0 (T0 + 30) sch off st He Ht Hid
                 (pointer_absent _ _ Hlc) eq_refl Hc Hsch Hoff Hq
                 ltac:(cbn; rewrite Hs30; apply Hoff0) e1 (T0 + 60)
                 ltac:(lia) He1
                 ltac:(cbn; rewrite !Hs30, Hoff0; f_equal; lia)).
      cbn. rewrite Hs30. reflexivity. }
    assert (Hst1 : st1 = mkState (with_bucket taskRunBucket
                               (<[ek +:+ "/" +:+ e1 := JRun r1]> (runsOf st)) (store st))
                            (S (issued st)) (clock st)).
    { subst st1. now rewrite H1. }
    assert (Hr1 : runsOf st1 = <[ek +:+ "/" +:+ e1 := JRun r1]> (runsOf st)).
    { now rewrite Hst1. }
    (* finishing it *)
    assert (Hp1 : pointer (runsOf st1 !! (ek +:+ "/latestCompleted")) = Some None).
    { rewrite Hr1, lookup_insert_ne by (now apply runKey_neq_latestKey).
      now apply pointer_absent. }
    assert (Haft : After (T0 + 30) zeroTime = true).
    { unfold After. apply Z.ltb_lt. lia. }
    assert (H2 : FinishRun taskID id1 st1
                 = (inr r1,
                    mkState (with_bucket taskRunBucket
                               (delete (ek +:+ "/" +:+ e1)
                                  (<[ek +:+ "/latestCompleted" := JRun r1]> (runsOf st1)))
                               (store st1))
                            (issued st1) (clock st1))).
    { unfold FinishRun, Update.
      rewrite (finishRun_run taskID id1 ek e1 r1 (T0 + 30) zeroTime None st1
                 He He1 ltac:(rewrite Hr1; apply lookup_insert_eq) eq_refl Hp1 eq_refl).
      now rewrite Haft. }
    assert (Hr2 : runsOf st2 = delete (ek +:+ "/" +:+ e1)
                                 (<[ek +:+ "/latestCompleted" := JRun r1]> (runsOf st1))).
    { subst st2. now rewrite H2. }
    assert (Hl2' : runsOf st2 !! (ek +:+ "/latestCompleted") = Some (JRun r1)).
    { rewrite Hr2, lookup_delete_ne by (now apply runKey_neq_latestKey).
      apply lookup_insert_eq. }
    (* second creation *)
    assert (Ht2 : tasksv1 (store st2) !! ek = Some (JTask task)).
    { subst st2. rewrite H2, Hst1. exact Ht. }
    assert (Hq2 : queued (runsOf st2 !! (ek +:+ "/manualRuns")) = Some []).
    { rewrite Hr2, Hr1.
      rewrite lookup_delete_ne by (now apply runKey_neq_manualKey).
      rewrite lookup_insert_ne by (apply not_eq_sym, manualKey_neq_latestKey).
      rewrite lookup_insert_ne by (now apply runKey_neq_manualKey). exact Hq. }
    assert (Hi2 : issued st2 = S (issued st)).
    { subst st2. now rewrite H2, Hst1. }
    assert (Hanchor : After (T0 + 30) T0 = true).
    { unfold After. apply Z.ltb_lt. lia. }
    assert (H3 : create (T0 + 65) st2
                 = (inr (mkRunCreation (mkQueuedRun taskID id2 (T0 + 60) 0) (T0 + 90) false),
                    mkState (with_bucket taskRunBucket
                               (<[ek +:+ "/" +:+ e2 := JRun r2]> (runsOf st2)) (store st2))
                            (S (issued st2)) (clock st2))).
    { subst create. unfold CreateNextRun, Update.
      rewrite (createNextRun_due IDGenerator cron_Parse offset_Parse taskID (T0 + 65) ek task
                 (Some r1) (T0 + 30) T0 (T0 + 60) sch off st2 He Ht2 Hid
                 ltac:(now rewrite Hl2') eq_refl Hc Hsch Hoff Hq2
                 ltac:(cbn; rewrite Hanchor, Hs30, Hoff0; f_equal; lia) e2 (T0 + 90)
                 ltac:(lia) ltac:(now rewrite Hi2)
                 ltac:(cbn; rewrite Hanchor, !Hs30, Hoff0; f_equal; lia)).
      cbn. rewrite Hanchor, Hs30, Hi2. unfold Unix.
      replace (T0 + 30 + 30) with (T0 + 60) by lia. reflexivity. }
    split; [now rewrite H1|]. split; [reflexivity|]. split; [reflexivity|].
    split; [exact Hr1|]. split; [now rewrite H2|]. split; [exact Hl2'|].
    split; [rewrite Hr2; apply lookup_delete_eq|].
    split; [now rewrite H3|]. split; [reflexivity|].
    subst st3. now rewrite H3.
  - intros p lt c due sch off now Hp Hlt Hc Hsch Hoff Hdue Hnow.
    unfold CreateNextRun, Update.
    rewrite (createNextRun_not_due IDGenerator cron_Parse offset_Parse taskID now ek task
               p lt c due sch off st He Ht Hid Hp Hlt Hc Hsch Hoff Hq Hdue Hnow).
    now rewrite State_eta.
Qed.

(** C10, as amended.  [ForceRun] never reads the task record: for a task
    id whose encoding is valid and whose manual queue is [l], whatever the
    task bucket holds (in particular when no task is stored under that id),
    [ForceRun(T, t)] succeeds and appends its run to the queue under that
    id when [l] has no entry scheduled for [t], and fails with the conflict
    error [ErrTaskRunAlreadyQueued] when it has one; in neither case with
    the task-not-found error. *)
Theorem ForceRun_ignores_task (IDGenerator : nat -> ID) (taskID : ID) (ek : string)
    (t : Z) (l : list Run) (st : State) :
  Encode taskID = Some ek ->
  queued (runsOf st !! (ek +:+ "/manualRuns")) = Some l ->
  let r := forcedRun IDGenerator taskID t st in
  forall tb : gmap string Value,
    let res := ForceRun IDGenerator taskID t (withTasks tb st) in
    fst res ≠ inl backend_ErrTaskNotFound
    /\ (~ Exists (fun run => run_ScheduledFor run = Stamp t) l ->
          fst res = inr r
          /\ runsOf (snd res) !! (ek +:+ "/manualRuns") = Some (JRuns (l ++ [r]))
          /\ tasksv1 (store (snd res)) = tb)
    /\ (Exists (fun run => run_ScheduledFor run = Stamp t) l ->
          fst res = inl ErrTaskRunAlreadyQueued).
Proof.
  intros He Hq r tb res.
  assert (Hq' : queued (runsOf (withTasks tb st) !! (ek +:+ "/manualRuns")) = Some l)
    by exact Hq.
  destruct (existsb (scheduledAt t) l) eqn:E.
  - assert (Hres : res = (inl ErrTaskRunAlreadyQueued,
                          mkState (store (withTasks tb st)) (S (issued st)) (clock st))).
    { subst res. unfold ForceRun, Update.
      now rewrite (forceRun_queued IDGenerator taskID ek t l _ He Hq' E). }
    rewrite Hres. cbn. split; [discriminate|]. split; [|reflexivity].
    intros Hn. apply existsb_scheduledAt in E. contradiction.
  - assert (Hres : fst res = inr r
                   /\ runsOf (snd res) !! (ek +:+ "/manualRuns") = Some (JRuns (l ++ [r]))
                   /\ tasksv1 (store (snd res)) = tb).
    { subst res. unfold ForceRun, Update.
      rewrite (forceRun_fresh IDGenerator taskID ek t l _ He Hq' E). cbn.
      split; [reflexivity|]. split; [|reflexivity].
      unfold runsOf. cbn. apply lookup_insert_eq. }
    split; [destruct Hres as (-> & _); discriminate|]. split; [intros _; exact Hres|].
    intros Hex. apply existsb_scheduledAt in Hex. congruence.
Qed.

(** ** Where the code departs from the design *)

(** A transaction function that fails leaves the store as it was: this is
    the all-or-nothing commit of [kv.Update], for [DeleteTask] as for every
    other operation. *)
Lemma Update_failure_rolls_back {A} (fn : Tx A) (st : State) (e : Error) :
  fst (Update fn st) = inl e -> store (snd (Update fn st)) = store st.
Proof.
  unfold Update. destruct (fn st) as [[e'|a] st']; cbn; [reflexivity|discriminate].
Qed.

(** Whatever the task, its schedule and its offset: when a tick is due and
    [CreateNextRun] is called twice with nothing in between, the second call
    creates a second run for the very same tick, since the anchor only moves
    with the latest-completed pointer. *)
Lemma CreateNextRun_repeats_tick (IDGenerator : nat -> ID)
    (cron_Parse : string -> option (Time -> Time))
    (offset_Parse : string -> option (Time -> option Time))
    (taskID : ID) (now : Z) (ek e1 e2 : string) (task : Task) (p : option Run)
    (lt c due nextDue : Time) (sch : Time -> Time) (off : Time -> option Time)
    (st : State) :
  Encode taskID = Some ek ->
  tasksv1 (store st) !! ek = Some (JTask task) ->
  task_ID task = taskID ->
  pointer (runsOf st !! (ek +:+ "/latestCompleted")) = Some p ->
  pointerTime p = Some lt ->
  task_CreatedAt task = Stamp c ->
  cron_Parse (EffectiveCron task) = Some sch ->
  offset_Parse (task_Offset task) = Some off ->
  queued (runsOf st !! (ek +:+ "/manualRuns")) = Some [] ->
  off (sch (anchorTime c p lt)) = Some due ->
  due <= now ->
  off (sch (sch (anchorTime c p lt))) = Some nextDue ->
  Encode (IDGenerator (issued st)) = Some e1 ->
  Encode (IDGenerator (S (issued st))) = Some e2 ->
  let tick := sch (anchorTime c p lt) in
  let create := CreateNextRun IDGenerator cron_Parse offset_Parse taskID now in
  let st1 := snd (create st) in
  let st2 := snd (create st1) in
  fst (create st)
    = inr (mkRunCreation (mkQueuedRun taskID (IDGenerator (issued st)) tick 0) nextDue false)
  /\ fst (create st1)
    = inr (mkRunCreation (mkQueuedRun taskID (IDGenerator (S (issued st))) tick 0)
                         nextDue false)
  /\ runsOf st2
     = <[ek +:+ "/" +:+ e2 := JRun (scheduledRun (IDGenerator (S (issued st))) task tick)]>
         (<[ek +:+ "/" +:+ e1 := JRun (scheduledRun (IDGenerator (issued st)) task tick)]>
            (runsOf st)).
Proof.
  intros He Ht Hid Hp Hlt Hc Hsch Hoff Hq Hdue Hnow Hnd He1 He2 tick create st1 st2.
  pose proof (Encode_length _ _ He1) as Hl1.
  assert (H1 : create st
               = (inr (mkRunCreation (mkQueuedRun taskID (IDGenerator (issued st)) tick 0)
                                     nextDue false),
                  mkState (with_bucket taskRunBucket
                             (<[ek +:+ "/" +:+ e1 :=
                                  JRun (scheduledRun (IDGenerator (issued st)) task tick)]>
                                (runsOf st)) (store st))
                          (S (issued st)) (clock st))).
  { subst create. unfold CreateNextRun, Update.
    now rewrite (createNextRun_due IDGenerator cron_Parse offset_Parse taskID now ek task
                   p lt c due sch off st He Ht Hid Hp Hlt Hc Hsch Hoff Hq Hdue
                   e1 nextDue Hnow He1 Hnd). }
  assert (Hst1 : st1 = mkState (with_bucket taskRunBucket
                             (<[ek +:+ "/" +:+ e1 :=
                                  JRun (scheduledRun (IDGenerator (issued st)) task tick)]>
                                (runsOf st)) (store st))
                          (S (issued st)) (clock st)).
  { subst st1. now rewrite H1. }
  assert (Hr1 : runsOf st1 = <[ek +:+ "/" +:+ e1 :=
                                  JRun (scheduledRun (IDGenerator (issued st)) task tick)]>
                                (runsOf st)) by now rewrite Hst1.
  assert (H2 : create st1
               = (inr (mkRunCreation (mkQueuedRun taskID (IDGenerator (S (issued st))) tick 0)
                                     nextDue false),
                  mkState (with_bucket taskRunBucket
                             (<[ek +:+ "/" +:+ e2 :=
                                  JRun (scheduledRun (IDGenerator (S (issued st))) task tick)]>
                                (runsOf st1)) (store st1))
                          (S (issued st1)) (clock st1))).
  { subst create. unfold CreateNextRun, Update.
    assert (Hi : issued st1 = S (issued st)) by now rewrite Hst1.
    rewrite (createNextRun_due IDGenerator cron_Parse offset_Parse taskID now ek task
               p lt c due sch off st1 He
               ltac:(rewrite Hst1; exact Ht) Hid
               ltac:(rewrite Hr1, lookup_insert_ne by (now apply runKey_neq_latestKey);
                     exact Hp)
               Hlt Hc Hsch Hoff
               ltac:(rewrite Hr1, lookup_insert_ne by (now apply runKey_neq_manualKey);
                     exact Hq)
               Hdue e2 nextDue Hnow ltac:(now rewrite Hi) Hnd).
    now rewrite Hi. }
  split; [now rewrite H1|]. split; [now rewrite H2|].
  subst st2. now rewrite H2, <- Hr1.
Qed.

(** C1. Two [CreateNextRun] calls in a row, both at a time when the first
    tick (second 1030) is due and with nothing else in between: both
    succeed, and the currently-running partition then holds two runs, with
    different ids and the same [scheduledFor]. *)
Theorem CreateNextRun_twice_same_tick :
  let create := CreateNextRun Example.ids Example.every30s Example.noOffset 1%N 1100 in
  let st1 := snd (create Example.created) in
  let st2 := snd (create st1) in
  fst (create Example.created)
    = inr (mkRunCreation (mkQueuedRun 1%N 100%N 1030 0) 1060 false)
  /\ fst (create st1)
    = inr (mkRunCreation (mkQueuedRun 1%N 101%N 1030 0) 1060 false)
  /\ fst (FindRuns 1%N 0 st2)
    = inr [scheduledRun 100%N Example.task1 1030; scheduledRun 101%N Example.task1 1030].
Proof. vm_compute. repeat split. Qed.

(** C2. [DeleteTask] on a task with one queued manual run succeeds and
    leaves the key of the manual queue, with the queued run in it, in the
    run bucket. *)
Theorem DeleteTask_leaves_manual_queue :
  let res := DeleteTask 1%N Example.withQueue in
  fst res = inr tt
  /\ tasksv1 (store (snd res)) !! Example.key1 = None
  /\ runsOf (snd res) !! (Example.key1 +:+ "/manualRuns")
     = Some (JRuns [Example.forced77]).
Proof. vm_compute. repeat split. Qed.

(** C7. [CancelRun] on a run of the currently-running partition succeeds,
    yet the run bucket is exactly as before: the canceled copy is written
    to the task bucket, and a later [FindRunByID] returns the run with the
    status it had. *)
Theorem CancelRun_misses_ledger (taskID runID : ID) (ek er : string) (r : Run) (st : State) :
  Encode taskID = Some ek -> Encode runID = Some er ->
  runsOf st !! (ek +:+ "/" +:+ er) = Some (JRun r) ->
  let st' := snd (CancelRun taskID runID st) in
  fst (CancelRun taskID runID st) = inr tt
  /\ runsOf st' = runsOf st
  /\ fst (FindRunByID taskID runID st') = inr r
  /\ tasksv1 (store st') !! (ek +:+ "/" +:+ er) = Some (JRun (set_run_Status "canceled" r)).
Proof.
  intros He Hr Hrun st'.
  assert (H : CancelRun taskID runID st
              = (inr tt, mkState (with_bucket taskBucket
                                    (<[ek +:+ "/" +:+ er := JRun (set_run_Status "canceled" r)]>
                                       (tasksv1 (store st))) (store st))
                                 (issued st) (clock st))).
  { unfold CancelRun, Update, cancelRun.
    tx_step (findRunByID_found taskID runID ek er r st He Hr Hrun).
    unfold taskRunKey. rewrite He, Hr. reflexivity. }
  subst st'. rewrite H. cbn.
  split; [reflexivity|]. split; [reflexivity|]. split; [|apply lookup_insert_eq].
  unfold FindRunByID, View.
  erewrite findRunByID_found; [reflexivity | exact He | exact Hr | exact Hrun].
Qed.

(** C8. [RetryRun] on a run of the currently-running partition of a task
    whose manual queue was never written: the call fails with the
    internal-kind error wrapping key-not-found, and nothing is stored. *)
Theorem RetryRun_fails_without_queue (IDGenerator : nat -> ID) (taskID runID : ID)
    (ek er : string) (r : Run) (st : State) :
  Encode taskID = Some ek -> Encode runID = Some er ->
  runsOf st !! (ek +:+ "/" +:+ er) = Some (JRun r) ->
  runsOf st !! (ek +:+ "/manualRuns") = None ->
  let res := RetryRun IDGenerator taskID runID st in
  fst res = inl (ErrUnexpectedTaskBucketErr ErrKeyNotFound)
  /\ store (snd res) = store st.
Proof.
  intros He Hr Hrun Hq res. subst res. unfold RetryRun, Update, retryRun.
  tx_step (findRunByID_found taskID runID ek er r st He Hr Hrun).
  unfold IDGenerator_ID, taskManualRunKey. rewrite He. do 3 tx_prim.
  tx_step (Get_run taskRunBucket (ek +:+ "/manualRuns")
             (mkState (store st) (S (issued st)) (clock st))).
  cbn [bucket store]. unfold runsOf in Hq. rewrite Hq. cbn. split; reflexivity.
Qed.

(** The retry that the design describes, which the code performs once the
    queue key exists: the clone is appended and the original is untouched. *)
Lemma RetryRun_with_queue (IDGenerator : nat -> ID) (taskID runID : ID)
    (ek er : string) (r : Run) (l : list Run) (st : State) :
  Encode taskID = Some ek -> Encode runID = Some er ->
  runsOf st !! (ek +:+ "/" +:+ er) = Some (JRun r) ->
  runsOf st !! (ek +:+ "/manualRuns") = Some (JRuns l) ->
  let clone := mkRun (IDGenerator (issued st)) (run_TaskID r) "" (run_ScheduledFor r)
                     Blank Blank Blank (run_Log r) in
  let res := RetryRun IDGenerator taskID runID st in
  fst res = inr clone
  /\ runsOf (snd res) !! (ek +:+ "/manualRuns") = Some (JRuns (l ++ [clone]))
  /\ runsOf (snd res) !! (ek +:+ "/" +:+ er) = Some (JRun r).
Proof.
  intros He Hr Hrun Hq clone res. subst res. unfold RetryRun, Update, retryRun.
  tx_step (findRunByID_found taskID runID ek er r st He Hr Hrun).
  unfold IDGenerator_ID, taskManualRunKey. rewrite He. do 3 tx_prim.
  tx_step (Get_run taskRunBucket (ek +:+ "/manualRuns")
             (mkState (store st) (S (issued st)) (clock st))).
  cbn [bucket store]. unfold runsOf in *. rewrite Hq.
  cbn [unmarshalRuns orFail]. do 2 tx_prim. unfold mret, Tx_ret. cbn.
  split; [reflexivity|]. split; [apply lookup_insert_eq|].
  rewrite lookup_insert_ne; [exact Hrun|].
  apply not_eq_sym, runKey_neq_manualKey. now apply Encode_length in Hr.
Qed.

(** C9. When no run is keyed [T/R] in the run ledger, [FindRunByID] and
    every operation that first loads the run fail, without writing, with
    [ErrUnexpectedTaskBucketErr], whose kind is internal, not not-found. *)
Theorem run_absent_is_internal_error (IDGenerator : nat -> ID) (taskID runID : ID)
    (ek er : string) (when : Time) (state : RunStatus) (log : string) (st : State) :
  Encode taskID = Some ek -> Encode runID = Some er ->
  runsOf st !! (ek +:+ "/" +:+ er) = None ->
  let e := ErrUnexpectedTaskBucketErr ErrKeyNotFound in
  ErrorCode e = Some EInternal
  /\ ErrorCode e ≠ ErrorCode ErrRunNotFound
  /\ FindRunByID taskID runID st = (inl e, st)
  /\ CancelRun taskID runID st = (inl e, st)
  /\ RetryRun IDGenerator taskID runID st = (inl e, st)
  /\ UpdateRunState taskID runID when state st = (inl e, st)
  /\ AddRunLog taskID runID when log st = (inl e, st)
  /\ FinishRun taskID runID st = (inl e, st).
Proof.
  intros He Hr Hrun e.
  pose proof (findRunByID_missing taskID runID ek er st He Hr Hrun) as H.
  split; [reflexivity|]. split; [discriminate|].
  unfold FindRunByID, CancelRun, RetryRun, UpdateRunState, AddRunLog, FinishRun,
    View, Update, cancelRun, retryRun, updateRunState, addRunLog, finishRun.
  rewrite !(bind_fail _ _ _ _ _ H), H, State_eta. repeat split.
Qed.

(** C6, as stated, fails.  From the service with run 7 (scheduled for
    second 1030) running: a run is forced for second 77, then run 7 is
    retried twice, so that the queue holds two clones scheduled for 1030.
    Both of two [ForceRun(1, 1030)] calls then fail with the conflict
    error, and the queue holds two runs scheduled for 1030, not one. *)
Lemma ForceRun_two_clones_counterexample :
  let st := snd (RetryRun Example.ids 1%N 7%N
                   (snd (RetryRun Example.ids 1%N 7%N
                           (snd (ForceRun Example.ids 1%N 77 Example.running))))) in
  let st1 := snd (ForceRun Example.ids 1%N 1030 st) in
  let st2 := snd (ForceRun Example.ids 1%N 1030 st1) in
  fst (ForceRun Example.ids 1%N 1030 st) = inl ErrTaskRunAlreadyQueued
  /\ fst (ForceRun Example.ids 1%N 1030 st1) = inl ErrTaskRunAlreadyQueued
  /\ fst (ManualRuns 1%N st2)
     = inr [mkRun 100%N 1%N "" (Stamp 77) Blank Blank (Stamp 5000) [];
            mkRun 101%N 1%N "" (Stamp 1030) Blank Blank Blank [];
            mkRun 102%N 1%N "" (Stamp 1030) Blank Blank Blank []]
  /\ ~ (exists q, fst (ManualRuns 1%N st2) = inr q
                  /\ List.length (List.filter (scheduledAt 1030) q) = 1%nat).
Proof.
  intros st st1 st2.
  assert (HM : fst (ManualRuns 1%N st2)
               = inr [mkRun 100%N 1%N "" (Stamp 77) Blank Blank (Stamp 5000) [];
                      mkRun 101%N 1%N "" (Stamp 1030) Blank Blank Blank [];
                      mkRun 102%N 1%N "" (Stamp 1030) Blank Blank Blank []])
    by (vm_compute; reflexivity).
  split; [vm_compute; reflexivity|]. split; [vm_compute; reflexivity|].
  split; [exact HM|].
  intros (q & Hq & Hlen). rewrite HM in Hq. injection Hq as <-.
  vm_compute in Hlen. discriminate Hlen.
Qed.

(** C10, as stated, fails: with a valid id, no task stored, and a run for
    second 77 already queued under the id, [ForceRun] does not succeed. *)
Lemma ForceRun_no_task_counterexample :
  Valid 1%N = true
  /\ tasksv1 (store Example.queueOnly) !! Example.key1 = None
  /\ fst (ForceRun Example.ids 1%N 77 Example.queueOnly) = inl ErrTaskRunAlreadyQueued
  /\ ~ (forall (taskID : ID) (t : Z) (st : State),
          Valid taskID = true ->
          exists r, fst (ForceRun Example.ids taskID t st) = inr r).
Proof.
  split; [reflexivity|]. split; [reflexivity|]. split; [vm_compute; reflexivity|].
  intros H. destruct (H 1%N 77 Example.queueOnly eq_refl) as [r Hr].
  vm_compute in Hr. discriminate Hr.
Qed.

(** ** The theorems at the concrete service *)

Lemma FinishRun_latest_pointer_witness :
  runsOf Example.running !! (Example.key1 +:+ "/0000000000000007") = Some (JRun Example.run7)
  /\ fst (FinishRun 1%N 7%N Example.running) = inr Example.run7
  /\ runsOf (snd (FinishRun 1%N 7%N Example.running)) !! (Example.key1 +:+ "/latestCompleted")
     = Some (JRun Example.run7).
Proof.
  split; [reflexivity|].
  edestruct (FinishRun_latest_pointer 1%N 7%N Example.key1 "0000000000000007"
               Example.run7 1030 zeroTime None Example.running)
    as (H1 & _ & H3 & _); [reflexivity..|].
  split; [exact H1|]. apply H3. reflexivity.
Defined.

Lemma CreateNextRun_scenario_witness :
  fst (CreateNextRun Example.ids Example.every30s Example.noOffset 1%N 1030 Example.created)
    = inr (mkRunCreation (mkQueuedRun 1%N 100%N 1030 0) 1060 false)
  /\ CreateNextRun Example.ids Example.every30s Example.noOffset 1%N 1010 Example.created
     = (inl (backend_RunNotYetDueError 1030), Example.created).
Proof.
  edestruct (CreateNextRun_scenario Example.ids Example.every30s Example.noOffset
               1%N Example.key1 Example.task1 Example.created)
    as (H1 & H2); [reflexivity..|].
  split.
  - edestruct (H1 1000 (fun t => t + 30) (fun t => Some t)
                 "0000000000000064" "0000000000000065") as (H & _);
      [reflexivity | discriminate | reflexivity | reflexivity | reflexivity | reflexivity
      | reflexivity | reflexivity | reflexivity |].
    exact H.
  - apply (H2 None zeroTime 1000 1030 (fun t => t + 30) (fun t => Some t) 1010);
      reflexivity.
Defined.

Lemma CreateNextRun_manual_priority_witness :
  queued (runsOf Example.withQueue !! (Example.key1 +:+ "/manualRuns"))
    = Some [Example.forced77]
  /\ runsOf (snd (CreateNextRun Example.ids Example.every30s Example.noOffset
                    1%N 2000 Example.withQueue))
       !! (Example.key1 +:+ "/0000000000000009") = Some (JRun Example.forced77).
Proof.
  split; [reflexivity|].
  edestruct (CreateNextRun_manual_priority Example.ids Example.every30s Example.noOffset
               1%N 2000 Example.key1 "0000000000000009" Example.task1 None zeroTime
               1000 77 4000 (fun t => t + 30) Example.forced77 [] Example.withQueue)
    as (_ & _ & H & _); [reflexivity..|].
  exact H.
Defined.

Lemma ForceRun_dedup_witness :
  queued (runsOf Example.created !! (Example.key1 +:+ "/manualRuns")) = Some []
  /\ fst (ForceRun Example.ids 1%N 77
            (snd (ForceRun Example.ids 1%N 77 Example.created)))
     = inl ErrTaskRunAlreadyQueued.
Proof.
  split; [reflexivity|].
  edestruct (ForceRun_dedup Example.ids 1%N Example.key1 77 [] Example.created)
    as (_ & _ & H & _); [reflexivity..|].
  exact H.
Defined.

Lemma ForceRun_ignores_task_witness :
  Encode 1%N = Some Example.key1
  /\ fst (ForceRun Example.ids 1%N 77 (withTasks ∅ Example.empty))
     = inr (forcedRun Example.ids 1%N 77 Example.empty).
Proof.
  split; [reflexivity|].
  edestruct (ForceRun_ignores_task Example.ids 1%N Example.key1 77 [] Example.empty)
    as (_ & H & _); [reflexivity..|].
  destruct H as (H & _); [|exact H].
  intros Hex. inversion Hex.
Defined.

Lemma CancelRun_misses_ledger_witness :
  run_Status Example.run7 = "started"
  /\ fst (CancelRun 1%N 7%N Example.running) = inr tt
  /\ fst (FindRunByID 1%N 7%N (snd (CancelRun 1%N 7%N Example.running)))
     = inr Example.run7.
Proof.
  split; [reflexivity|].
  edestruct (CancelRun_misses_ledger 1%N 7%N Example.key1 "0000000000000007"
               Example.run7 Example.running)
    as (H1 & _ & H3 & _); [reflexivity..|].
  split; [exact H1 | exact H3].
Defined.

Lemma RetryRun_fails_without_queue_witness :
  runsOf Example.running !! (Example.key1 +:+ "/manualRuns") = None
  /\ fst (RetryRun Example.ids 1%N 7%N Example.running)
     = inl (ErrUnexpectedTaskBucketErr ErrKeyNotFound).
Proof.
  split; [reflexivity|].
  edestruct (RetryRun_fails_without_queue Example.ids 1%N 7%N Example.key1
               "0000000000000007" Example.run7 Example.running)
    as (H & _); [reflexivity..|].
  exact H.
Defined.

Lemma run_absent_is_internal_error_witness :
  runsOf Example.created !! (Example.key1 +:+ "/0000000000000007") = None
  /\ FindRunByID 1%N 7%N Example.created
     = (inl (ErrUnexpectedTaskBucketErr ErrKeyNotFound), Example.created).
Proof.
  split; [reflexivity|].
  edestruct (run_absent_is_internal_error Example.ids 1%N 7%N Example.key1
               "0000000000000007" 0 RunStarted "" Example.created)
    as (_ & _ & H & _); [reflexivity..|].
  exact H.
Defined.

(** * Further properties of the task service *)

(** ** Keys of the run bucket *)

Lemma append_inj_length (s1 s2 t1 t2 : string) :
  String.length s1 = String.length s2 ->
  s1 +:+ t1 = s2 +:+ t2 -> s1 = s2 /\ t1 = t2.
Proof.
  revert s2. induction s1 as [|a s1 IH]; intros [|b s2] Hl Heq; try discriminate.
  - split; [reflexivity | exact Heq].
  - cbn in Hl, Heq. injection Heq as -> Heq. injection Hl as Hl.
    destruct (IH s2 Hl Heq) as [-> ->]. split; reflexivity.
Qed.

Lemma prefix_append (s t : string) : String.prefix s (s +:+ t) = true.
Proof.
  induction s as [|a s IH]; [now destruct t|].
  change (String a s +:+ t) with (String a (s +:+ t)). cbn [String.prefix].
  destruct (ascii_dec a a) as [_|Hn]; [exact IH | contradiction].
Qed.

(** The keys under which the run bucket keeps the three partitions never
    collide, whichever tasks they belong to: a run key is never the key of
    a manual queue or of a latest-completed pointer, and a queue key is
    never a pointer key.  Each of them starts with the key of its task,
    which is what the scan of the currently-running partition relies on. *)
Theorem ledger_keys_disjoint (t t' t'' r : ID) (k km kl : string) :
  taskRunKey t r = inr k ->
  taskManualRunKey t' = inr km ->
  taskLatestCompletedKey t'' = inr kl ->
  k ≠ km /\ k ≠ kl /\ km ≠ kl
  /\ (exists ek, taskKey t = inr ek /\ HasPrefix k ek = true)
  /\ (exists ek', taskKey t' = inr ek' /\ HasPrefix km ek' = true)
  /\ (exists ek'', taskKey t'' = inr ek'' /\ HasPrefix kl ek'' = true).
Proof.
  unfold taskRunKey, taskManualRunKey, taskLatestCompletedKey, taskKey, HasPrefix.
  destruct (Encode t) as [ek|] eqn:Et; [|discriminate].
  destruct (Encode r) as [er|] eqn:Er; [|discriminate].
  destruct (Encode t') as [ek'|] eqn:Et'; [|discriminate].
  destruct (Encode t'') as [ek''|] eqn:Et''; [|discriminate].
  intros Hk Hkm Hkl.
  assert (k = ek +:+ "/" +:+ er) as -> by congruence.
  assert (km = ek' +:+ "/manualRuns") as -> by congruence.
  assert (kl = ek'' +:+ "/latestCompleted") as -> by congruence.
  apply Encode_length in Et, Er, Et', Et''.
  repeat split.
  - intros H. apply append_inj_length in H as [-> H]; [|congruence].
    now apply (runKey_neq_manualKey ek' er Er), f_equal.
  - intros H. apply append_inj_length in H as [-> H]; [|congruence].
    now apply (runKey_neq_latestKey ek'' er Er), f_equal.
  - intros H. apply append_inj_length in H as [_ H]; [discriminate | congruence].
  - exists ek. split; [reflexivity | apply prefix_append].
  - exists ek'. split; [reflexivity | apply prefix_append].
  - exists ek''. split; [reflexivity | apply prefix_append].
Qed.

Lemma ledger_keys_disjoint_witness :
  taskRunKey 1%N 7%N = inr "0000000000000001/0000000000000007"
  /\ "0000000000000001/0000000000000007" ≠ "0000000000000002/manualRuns".
Proof.
  split; [reflexivity|].
  edestruct (ledger_keys_disjoint 1%N 2%N 3%N 7%N) as (H & _); [reflexivity..|].
  exact H.
Defined.

(** ** Malformed identifiers *)

Lemma taskRunKey_invalid (taskID runID : ID) :
  Encode taskID = None \/ Encode runID = None ->
  taskRunKey taskID runID = inl ErrInvalidTaskID.
Proof.
  unfold taskRunKey. intros [-> | ->]; [reflexivity|].
  now destruct (Encode taskID).
Qed.

Lemma findRunByID_invalid (taskID runID : ID) (st : State) :
  Encode taskID = None \/ Encode runID = None ->
  findRunByID taskID runID st = (inl ErrInvalidTaskID, st).
Proof.
  intros H. unfold findRunByID. tx_prim.
  now rewrite (taskRunKey_invalid taskID runID H).
Qed.

Lemma findTaskByID_invalid (taskID : ID) (st : State) :
  Encode taskID = None -> findTaskByID taskID st = (inl ErrInvalidTaskID, st).
Proof. intros H. unfold findTaskByID, taskKey. now rewrite H. Qed.

Lemma manualRuns_invalid (taskID : ID) (st : State) :
  Encode taskID = None -> manualRuns taskID st = (inl ErrInvalidTaskID, st).
Proof. intros H. unfold manualRuns, taskManualRunKey. rewrite H. now tx_prim. Qed.

(** An identifier that does not encode is refused before anything is read
    or written: every operation on a run whose task id or run id is
    malformed, and every operation on a task whose id is malformed, fails
    with [ErrInvalidTaskID], of kind invalid, and the store is as before. *)
Theorem invalid_id_rejected (IDGenerator : nat -> ID)
    (cron_Parse : string -> option (Time -> Time))
    (offset_Parse : string -> option (Time -> option Time))
    (taskID runID : ID) (when : Time) (state : RunStatus) (log : string)
    (t now : Z) (st : State) :
  ErrorCode ErrInvalidTaskID = Some EInvalid
  /\ (Encode taskID = None \/ Encode runID = None ->
      FindRunByID taskID runID st = (inl ErrInvalidTaskID, st)
      /\ CancelRun taskID runID st = (inl ErrInvalidTaskID, st)
      /\ RetryRun IDGenerator taskID runID st = (inl ErrInvalidTaskID, st)
      /\ UpdateRunState taskID runID when state st = (inl ErrInvalidTaskID, st)
      /\ AddRunLog taskID runID when log st = (inl ErrInvalidTaskID, st)
      /\ FinishRun taskID runID st = (inl ErrInvalidTaskID, st))
  /\ (Encode taskID = None ->
      FindTaskByID taskID st = (inl ErrInvalidTaskID, st)
      /\ CreateNextRun IDGenerator cron_Parse offset_Parse taskID now st
         = (inl ErrInvalidTaskID, st)
      /\ DeleteTask taskID st = (inl ErrInvalidTaskID, st)
      /\ NextDueRun cron_Parse taskID st = (inl ErrInvalidTaskID, st)
      /\ fst (ForceRun IDGenerator taskID t st) = inl ErrInvalidTaskID
      /\ store (snd (ForceRun IDGenerator taskID t st)) = store st).
Proof.
  split; [reflexivity|]. split.
  - intros H. pose proof (findRunByID_invalid taskID runID st H) as Hf.
    unfold FindRunByID, CancelRun, RetryRun, UpdateRunState, AddRunLog, FinishRun,
      View, Update, cancelRun, retryRun, updateRunState, addRunLog, finishRun.
    rewrite !(bind_fail _ _ _ _ _ Hf), Hf, State_eta. repeat split.
  - intros H. pose proof (findTaskByID_invalid taskID st H) as Hf.
    unfold FindTaskByID, CreateNextRun, DeleteTask, NextDueRun, ForceRun, View, Update,
      createNextRun, deleteTask, nextDueRun, forceRun.
    rewrite !(bind_fail _ _ _ _ _ Hf), Hf, State_eta.
    split; [reflexivity|]. split; [reflexivity|].
    split. { do 3 tx_prim. rewrite (bind_fail _ _ _ _ _ Hf). now rewrite State_eta. }
    split; [reflexivity|].
    unfold IDGenerator_ID. do 3 tx_prim.
    rewrite (bind_fail _ _ _ _ _ (manualRuns_invalid taskID _ H)). split; reflexivity.
Qed.

Lemma invalid_id_rejected_witness :
  Encode 0%N = None
  /\ FinishRun 0%N 7%N Example.running = (inl ErrInvalidTaskID, Example.running)
  /\ DeleteTask 0%N Example.running = (inl ErrInvalidTaskID, Example.running).
Proof.
  split; [reflexivity|].
  destruct (invalid_id_rejected Example.ids Example.every30s Example.noOffset
              0%N 7%N 0 RunStarted "" 0 0 Example.running) as (_ & H1 & H2).
  destruct (H1 (or_introl eq_refl)) as (_ & _ & _ & _ & _ & Hf).
  destruct (H2 eq_refl) as (_ & _ & Hd & _).
  split; [exact Hf | exact Hd].
Defined.

(** ** Run lifecycle *)

Lemma updateRunState_run (taskID runID : ID) (ek er : string) (r : Run)
    (when : Time) (state : RunStatus) (st : State) :
  Encode taskID = Some ek -> Encode runID = Some er ->
  runsOf st !! (ek +:+ "/" +:+ er) = Some (JRun r) ->
  run_ID r = runID ->
  exists r',
    updateRunState taskID runID when state st
    = (inr tt, mkState (with_bucket taskRunBucket
                          (<[ek +:+ "/" +:+ er := JRun r']> (runsOf st)) (store st))
                       (issued st) (clock st))
    /\ run_Status r' = RunStatus_String state
    /\ run_StartedAt r'
       = match state with RunStarted => Format when | _ => run_StartedAt r end
    /\ run_FinishedAt r' = (if terminal state then Format when else run_FinishedAt r)
    /\ run_ID r' = run_ID r /\ run_TaskID r' = run_TaskID r
    /\ run_ScheduledFor r' = run_ScheduledFor r
    /\ run_RequestedAt r' = run_RequestedAt r
    /\ run_Log r' = run_Log r.
Proof.
  intros He Hr Hrun Hid. unfold updateRunState.
  rewrite (bind_run _ _ _ _ _ (findRunByID_found taskID runID ek er r st He Hr Hrun)).
  destruct state; cbn [set_run_Status set_run_StartedAt set_run_FinishedAt run_ID];
    unfold taskRunKey; rewrite Hid, He, Hr; eexists;
    (split; [reflexivity | cbn; rewrite ?Hid; repeat split]).
Qed.

(** [UpdateRunState] on a run stored under its own id, whatever status the
    run had: it succeeds, and the run then reads back with the new status,
    with [startedAt] set to [when] if the new state is started, with
    [finishedAt] set to [when] if it is success, failed or canceled, and
    with every other field, every other key and the other buckets as
    before.  No order of states is enforced. *)
Theorem UpdateRunState_then_read (taskID runID : ID) (ek er : string) (r : Run)
    (when : Time) (state : RunStatus) (st : State) :
  Encode taskID = Some ek -> Encode runID = Some er ->
  runsOf st !! (ek +:+ "/" +:+ er) = Some (JRun r) ->
  run_ID r = runID ->
  let st' := snd (UpdateRunState taskID runID when state st) in
  fst (UpdateRunState taskID runID when state st) = inr tt
  /\ (exists r',
        FindRunByID taskID runID st' = (inr r', st')
        /\ run_Status r' = RunStatus_String state
        /\ run_StartedAt r'
           = match state with RunStarted => Format when | _ => run_StartedAt r end
        /\ run_FinishedAt r' = (if terminal state then Format when else run_FinishedAt r)
        /\ run_ID r' = run_ID r /\ run_TaskID r' = run_TaskID r
        /\ run_ScheduledFor r' = run_ScheduledFor r
        /\ run_RequestedAt r' = run_RequestedAt r
        /\ run_Log r' = run_Log r)
  /\ (forall k, k ≠ ek +:+ "/" +:+ er -> runsOf st' !! k = runsOf st !! k)
  /\ tasksv1 (store st') = tasksv1 (store st)
  /\ taskIndexsv1 (store st') = taskIndexsv1 (store st).
Proof.
  intros He Hr Hrun Hid st'.
  destruct (updateRunState_run taskID runID ek er r when state st He Hr Hrun Hid)
    as (r' & Hu & Hfields).
  subst st'. unfold UpdateRunState, Update. rewrite Hu. cbn [fst snd].
  split; [reflexivity|]. split.
  - exists r'. split; [|exact Hfields].
    unfold FindRunByID, View.
    erewrite findRunByID_found; [reflexivity | exact He | exact Hr |].
    unfold runsOf. cbn. apply lookup_insert_eq.
  - split; [|split; reflexivity].
    intros k Hk. unfold runsOf. cbn. now apply lookup_insert_ne.
Qed.

Lemma UpdateRunState_then_read_witness :
  run_Status Example.run7 = "started"
  /\ exists r',
      FindRunByID 1%N 7%N (snd (UpdateRunState 1%N 7%N 1090 RunSuccess Example.running))
      = (inr r', snd (UpdateRunState 1%N 7%N 1090 RunSuccess Example.running))
      /\ run_Status r' = "success" /\ run_FinishedAt r' = Stamp 1090
      /\ run_StartedAt r' = Stamp 1031.
Proof.
  split; [reflexivity|].
  edestruct (UpdateRunState_then_read 1%N 7%N Example.key1 "0000000000000007"
               Example.run7 1090 RunSuccess Example.running)
    as (_ & (r' & H1 & H2 & H3 & H4 & _) & _); [reflexivity..|].
  exists r'. repeat split; assumption.
Defined.

Lemma addRunLog_run (taskID runID : ID) (ek er : string) (r : Run)
    (when : Time) (log : string) (st : State) :
  Encode taskID = Some ek -> Encode runID = Some er ->
  runsOf st !! (ek +:+ "/" +:+ er) = Some (JRun r) ->
  run_ID r = runID ->
  addRunLog taskID runID when log st
  = (inr tt, mkState (with_bucket taskRunBucket
                        (<[ek +:+ "/" +:+ er :=
                             JRun (set_run_Log (run_Log r ++ [mkLog (Format when) log]) r)]>
                           (runsOf st)) (store st))
                     (issued st) (clock st)).
Proof.
  intros He Hr Hrun Hid. unfold addRunLog.
  rewrite (bind_run _ _ _ _ _ (findRunByID_found taskID runID ek er r st He Hr Hrun)).
  cbn [set_run_Log run_ID]. unfold taskRunKey. rewrite Hid, He, Hr. reflexivity.
Qed.

(** [AddRunLog] appends: after two calls on a run stored under its own id,
    the run reads back with its earlier log entries first, then the entry
    of the first call, then that of the second, and with every other field
    as before. *)
Theorem AddRunLog_appends_in_order (taskID runID : ID) (ek er : string) (r : Run)
    (when1 when2 : Time) (log1 log2 : string) (st : State) :
  Encode taskID = Some ek -> Encode runID = Some er ->
  runsOf st !! (ek +:+ "/" +:+ er) = Some (JRun r) ->
  run_ID r = runID ->
  let st1 := snd (AddRunLog taskID runID when1 log1 st) in
  let st2 := snd (AddRunLog taskID runID when2 log2 st1) in
  fst (AddRunLog taskID runID when1 log1 st) = inr tt
  /\ fst (AddRunLog taskID runID when2 log2 st1) = inr tt
  /\ FindRunByID taskID runID st2
     = (inr (set_run_Log (run_Log r ++ [mkLog (Format when1) log1; mkLog (Format when2) log2]) r),
        st2)
  /\ (forall k, k ≠ ek +:+ "/" +:+ er -> runsOf st2 !! k = runsOf st !! k).
Proof.
  intros He Hr Hrun Hid st1 st2.
  assert (H1 : AddRunLog taskID runID when1 log1 st
               = (inr tt, mkState (with_bucket taskRunBucket
                        (<[ek +:+ "/" +:+ er :=
                             JRun (set_run_Log (run_Log r ++ [mkLog (Format when1) log1]) r)]>
                           (runsOf st)) (store st))
                     (issued st) (clock st))).
  { unfold AddRunLog, Update.
    now rewrite (addRunLog_run taskID runID ek er r when1 log1 st He Hr Hrun Hid). }
  assert (Hrun1 : runsOf st1 !! (ek +:+ "/" +:+ er)
                  = Some (JRun (set_run_Log (run_Log r ++ [mkLog (Format when1) log1]) r))).
  { subst st1. rewrite H1. unfold runsOf. cbn. apply lookup_insert_eq. }
  assert (H2 : AddRunLog taskID runID when2 log2 st1
               = (inr tt, mkState (with_bucket taskRunBucket
                        (<[ek +:+ "/" +:+ er :=
                             JRun (set_run_Log
                                     (run_Log r ++ [mkLog (Format when1) log1;
                                                    mkLog (Format when2) log2]) r)]>
                           (runsOf st1)) (store st1))
                     (issued st1) (clock st1))).
  { unfold AddRunLog, Update.
    rewrite (addRunLog_run taskID runID ek er _ when2 log2 st1 He Hr Hrun1 Hid).
    cbn [run_Log set_run_Log]. rewrite <- app_assoc. reflexivity. }
  split; [now rewrite H1|]. split; [now rewrite H2|]. split.
  - unfold FindRunByID, View.
    erewrite findRunByID_found; [now rewrite State_eta | exact He | exact Hr |].
    subst st2. rewrite H2. unfold runsOf. cbn. apply lookup_insert_eq.
  - intros k Hk. subst st2. rewrite H2. unfold runsOf at 1. cbn.
    rewrite lookup_insert_ne by congruence.
    subst st1. rewrite H1. unfold runsOf at 1. cbn. now apply lookup_insert_ne.
Qed.

Lemma AddRunLog_appends_in_order_witness :
  run_Log Example.run7 = []
  /\ fst (FindRunByID 1%N 7%N
            (snd (AddRunLog 1%N 7%N 1041 "b"
                    (snd (AddRunLog 1%N 7%N 1040 "a" Example.running)))))
     = inr (set_run_Log [mkLog (Stamp 1040) "a"; mkLog (Stamp 1041) "b"] Example.run7).
Proof.
  split; [reflexivity|].
  edestruct (AddRunLog_appends_in_order 1%N 7%N Example.key1 "0000000000000007"
               Example.run7 1040 1041 "a" "b" Example.running)
    as (_ & _ & H & _); [reflexivity..|].
  now rewrite H.
Defined.

(** ** Tasks that are not stored *)

Lemma findTaskByID_missing (taskID : ID) (ek : string) (st : State) :
  Encode taskID = Some ek ->
  tasksv1 (store st) !! ek = None ->
  findTaskByID taskID st = (inl backend_ErrTaskNotFound, st).
Proof.
  intros He Ht. unfold findTaskByID, taskKey. rewrite He. do 2 tx_prim.
  rewrite (bind_run _ _ _ _ _ (Get_run taskBucket ek st)).
  cbn [bucket]. now rewrite Ht.
Qed.

(** When no task is stored under an id, reading the task, asking for its
    next due time, creating its next run and deleting it all fail with the
    task-not-found error and leave the state as it was, whatever the run
    bucket holds.  In particular a run that [ForceRun] queued under such
    an id, which [ForceRun] accepts, is never handed out by
    [CreateNextRun]: it stays in the queue. *)
Theorem task_missing_not_found (IDGenerator : nat -> ID)
    (cron_Parse : string -> option (Time -> Time))
    (offset_Parse : string -> option (Time -> option Time))
    (taskID : ID) (ek : string) (t now : Z) (l : list Run) (st : State) :
  Encode taskID = Some ek ->
  tasksv1 (store st) !! ek = None ->
  FindTaskByID taskID st = (inl backend_ErrTaskNotFound, st)
  /\ NextDueRun cron_Parse taskID st = (inl backend_ErrTaskNotFound, st)
  /\ CreateNextRun IDGenerator cron_Parse offset_Parse taskID now st
     = (inl backend_ErrTaskNotFound, st)
  /\ DeleteTask taskID st = (inl backend_ErrTaskNotFound, st)
  /\ (queued (runsOf st !! (ek +:+ "/manualRuns")) = Some l ->
      existsb (scheduledAt t) l = false ->
      let st1 := snd (ForceRun IDGenerator taskID t st) in
      fst (ForceRun IDGenerator taskID t st) = inr (forcedRun IDGenerator taskID t st)
      /\ CreateNextRun IDGenerator cron_Parse offset_Parse taskID now st1
         = (inl backend_ErrTaskNotFound, st1)
      /\ ManualRuns taskID st1 = (inr (l ++ [forcedRun IDGenerator taskID t st]), st1)).
Proof.
  intros He Ht. pose proof (findTaskByID_missing taskID ek st He Ht) as Hf.
  assert (Hc : forall s, tasksv1 (store s) !! ek = None ->
                 CreateNextRun IDGenerator cron_Parse offset_Parse taskID now s
                 = (inl backend_ErrTaskNotFound, s)).
  { intros s Hs. unfold CreateNextRun, Update, createNextRun.
    rewrite (bind_fail _ _ _ _ _ (findTaskByID_missing taskID ek s He Hs)).
    now rewrite State_eta. }
  split. { unfold FindTaskByID, View. now rewrite Hf, State_eta. }
  split. { unfold NextDueRun, View, nextDueRun.
           now rewrite (bind_fail _ _ _ _ _ Hf), State_eta. }
  split; [now apply Hc|].
  split. { unfold DeleteTask, Update, deleteTask. do 3 tx_prim.
           now rewrite (bind_fail _ _ _ _ _ Hf), State_eta. }
  intros Hq Hex st1.
  assert (H1 : ForceRun IDGenerator taskID t st
               = (inr (forcedRun IDGenerator taskID t st),
                  mkState (with_bucket taskRunBucket
                             (<[ek +:+ "/manualRuns" :=
                                  JRuns (l ++ [forcedRun IDGenerator taskID t st])]>
                                (runsOf st)) (store st))
                          (S (issued st)) (clock st))).
  { unfold ForceRun, Update.
    now rewrite (forceRun_fresh IDGenerator taskID ek t l st He Hq Hex). }
  split; [now rewrite H1|]. split.
  - apply Hc. subst st1. rewrite H1. exact Ht.
  - unfold ManualRuns, View.
    erewrite manualRuns_run; [now rewrite State_eta | exact He |].
    subst st1. rewrite H1. unfold runsOf. cbn. now rewrite lookup_insert_eq.
Qed.

Lemma task_missing_not_found_witness :
  tasksv1 (store Example.empty) !! Example.key1 = None
  /\ CreateNextRun Example.ids Example.every30s Example.noOffset 1%N 9999
       (snd (ForceRun Example.ids 1%N 77 Example.empty))
     = (inl backend_ErrTaskNotFound, snd (ForceRun Example.ids 1%N 77 Example.empty)).
Proof.
  split; [reflexivity|].
  edestruct (task_missing_not_found Example.ids Example.every30s Example.noOffset
               1%N Example.key1 77 9999 [] Example.empty)
    as (_ & _ & _ & _ & H); [reflexivity..|].
  destruct H as (_ & H & _); [reflexivity | reflexivity | exact H].
Defined.

(** ** Forced runs through the queue *)

(** A run forced, for a time of the years 0000 to 9999, onto an empty
    queue is what the next [CreateNextRun] hands out, for every [now], also
    one before the forced time: the result carries the id the generator
    gave the forced run, the forced time as [Now] and the wall-clock time
    of the [ForceRun] call as [RequestedAt]; the run is stored in the
    currently-running partition as it was queued, and the queue key is left
    holding the empty list. *)
Theorem ForceRun_then_CreateNextRun (IDGenerator : nat -> ID)
    (cron_Parse : string -> option (Time -> Time))
    (offset_Parse : string -> option (Time -> option Time))
    (taskID : ID) (t now : Z) (ek em : string) (task : Task)
    (p : option Run) (lt c : Time) (sch : Time -> Time) (st : State) :
  Encode taskID = Some ek ->
  tasksv1 (store st) !! ek = Some (JTask task) ->
  task_ID task = taskID ->
  pointer (runsOf st !! (ek +:+ "/latestCompleted")) = Some p ->
  pointerTime p = Some lt ->
  task_CreatedAt task = Stamp c ->
  cron_Parse (EffectiveCron task) = Some sch ->
  queued (runsOf st !! (ek +:+ "/manualRuns")) = Some [] ->
  Encode (IDGenerator (issued st)) = Some em ->
  printable t ->
  printable (clock st) -> clock st ≠ zeroTime ->
  let forced := forcedRun IDGenerator taskID t st in
  let st1 := snd (ForceRun IDGenerator taskID t st) in
  let res := CreateNextRun IDGenerator cron_Parse offset_Parse taskID now st1 in
  fst (ForceRun IDGenerator taskID t st) = inr forced
  /\ fst res = inr (mkRunCreation
                      (mkQueuedRun taskID (IDGenerator (issued st)) t (clock st))
                      (sch (if IsZero lt then c else lt)) false)
  /\ runsOf (snd res) !! (ek +:+ "/" +:+ em) = Some (JRun forced)
  /\ runsOf (snd res) !! (ek +:+ "/manualRuns") = Some (JRuns []).
Proof.
  intros He Ht Hid Hp Hlt Hc Hsch Hq Hem _ _ Hclk forced st1 res.
  pose proof (Encode_length _ _ Hem) as Hl.
  assert (H1 : ForceRun IDGenerator taskID t st
               = (inr forced,
                  mkState (with_bucket taskRunBucket
                             (<[ek +:+ "/manualRuns" := JRuns [forced]]> (runsOf st))
                             (store st))
                          (S (issued st)) (clock st))).
  { unfold ForceRun, Update.
    now rewrite (forceRun_fresh IDGenerator taskID ek t [] st He Hq eq_refl). }
  assert (Hst1 : st1 = mkState (with_bucket taskRunBucket
                             (<[ek +:+ "/manualRuns" := JRuns [forced]]> (runsOf st))
                             (store st))
                          (S (issued st)) (clock st)).
  { subst st1. now rewrite H1. }
  assert (Hr1 : runsOf st1 = <[ek +:+ "/manualRuns" := JRuns [forced]]> (runsOf st))
    by now rewrite Hst1.
  assert (H2 : res = (inr (manualCreation taskID forced [] t (clock st)
                             (sch (if IsZero lt then c else lt))),
                      mkState (with_bucket taskRunBucket
                                 (popped ek em forced [] (runsOf st1)) (store st1))
                              (issued st1) (clock st1))).
  { subst res. unfold CreateNextRun, Update.
    rewrite (createNextRun_manual IDGenerator cron_Parse offset_Parse taskID now ek em
               task p lt c t (clock st) sch forced [] st1 He
               ltac:(rewrite Hst1; exact Ht) Hid
               ltac:(rewrite Hr1, lookup_insert_ne by apply manualKey_neq_latestKey;
                     exact Hp)
               Hlt Hc Hsch
               ltac:(rewrite Hr1, lookup_insert_eq; reflexivity)
               Hem eq_refl eq_refl).
    reflexivity. }
  split; [now rewrite H1|]. rewrite H2. cbn [fst snd]. split.
  - unfold manualCreation, Unix. cbn.
    replace (IsZero (clock st)) with false; [reflexivity|].
    symmetry. unfold IsZero. now apply Z.eqb_neq.
  - unfold runsOf at 1 3, popped. cbn. split; [apply lookup_insert_eq|].
    rewrite lookup_insert_ne by (now apply runKey_neq_manualKey).
    apply lookup_insert_eq.
Qed.

Lemma ForceRun_then_CreateNextRun_witness :
  queued (runsOf Example.created !! (Example.key1 +:+ "/manualRuns")) = Some []
  /\ printable 77
  /\ fst (CreateNextRun Example.ids Example.every30s Example.noOffset 1%N 50
            (snd (ForceRun Example.ids 1%N 77 Example.created)))
     = inr (mkRunCreation (mkQueuedRun 1%N 100%N 77 5000) 1030 false).
Proof.
  split; [reflexivity|]. split; [unfold printable; lia|].
  edestruct (ForceRun_then_CreateNextRun Example.ids Example.every30s Example.noOffset
               1%N 77 50 Example.key1 "0000000000000064" Example.task1 None zeroTime
               1000 (fun t => t + 30) Example.created)
    as (_ & H & _);
    [reflexivity | reflexivity | reflexivity | reflexivity | reflexivity | reflexivity
    | reflexivity | reflexivity | reflexivity | unfold printable; lia
    | unfold printable; cbn; lia | discriminate |].
  exact H.
Defined.

(** ** Scheduled runs *)

(** When the manual queue is empty and the next tick is due,
    [CreateNextRun] creates one run, for the first tick after the anchor
    (the later of the creation time and the pointer's [scheduledFor]), not
    for the latest tick before [now]: ticks that were missed are made up
    one call at a time.  The run is stored with status scheduled and no
    other timestamps under a freshly drawn id, nothing else is written, and
    the result reports that tick as [Now] and the tick after it, offset
    applied, as next due. *)
Theorem CreateNextRun_creates_next_tick (IDGenerator : nat -> ID)
    (cron_Parse : string -> option (Time -> Time))
    (offset_Parse : string -> option (Time -> option Time))
    (taskID : ID) (now : Z) (ek ei : string) (task : Task) (p : option Run)
    (lt c due nextDue : Time) (sch : Time -> Time) (off : Time -> option Time)
    (st : State) :
  Encode taskID = Some ek ->
  tasksv1 (store st) !! ek = Some (JTask task) ->
  task_ID task = taskID ->
  pointer (runsOf st !! (ek +:+ "/latestCompleted")) = Some p ->
  pointerTime p = Some lt ->
  task_CreatedAt task = Stamp c ->
  cron_Parse (EffectiveCron task) = Some sch ->
  offset_Parse (task_Offset task) = Some off ->
  queued (runsOf st !! (ek +:+ "/manualRuns")) = Some [] ->
  off (sch (anchorTime c p lt)) = Some due ->
  due <= now ->
  Encode (IDGenerator (issued st)) = Some ei ->
  off (sch (sch (anchorTime c p lt))) = Some nextDue ->
  let tick := sch (anchorTime c p lt) in
  let id := IDGenerator (issued st) in
  let res := CreateNextRun IDGenerator cron_Parse offset_Parse taskID now st in
  fst res = inr (mkRunCreation (mkQueuedRun taskID id tick 0) nextDue false)
  /\ runsOf (snd res) !! (ek +:+ "/" +:+ ei)
     = Some (JRun (mkRun id taskID "scheduled" (Stamp tick) Blank Blank Blank []))
  /\ (forall k, k ≠ ek +:+ "/" +:+ ei -> runsOf (snd res) !! k = runsOf st !! k)
  /\ issued (snd res) = S (issued st)
  /\ tasksv1 (store (snd res)) = tasksv1 (store st)
  /\ taskIndexsv1 (store (snd res)) = taskIndexsv1 (store st).
Proof.
  intros He Ht Hid Hp Hlt Hc Hsch Hoff Hq Hdue Hnow Hei Hnd tick id res.
  subst res. unfold CreateNextRun, Update.
  rewrite (createNextRun_due IDGenerator cron_Parse offset_Parse taskID now ek task
             p lt c due sch off st He Ht Hid Hp Hlt Hc Hsch Hoff Hq Hdue
             ei nextDue Hnow Hei Hnd).
  cbn [fst snd]. unfold runsOf, scheduledRun, Unix, Format. cbn. rewrite Hid.
  split; [reflexivity|]. split; [apply lookup_insert_eq|].
  split; [|repeat split]. intros k Hk. now apply lookup_insert_ne.
Qed.

Lemma CreateNextRun_creates_next_tick_witness :
  1030 <= 2000
  /\ fst (CreateNextRun Example.ids Example.every30s Example.noOffset 1%N 2000
            Example.created)
     = inr (mkRunCreation (mkQueuedRun 1%N 100%N 1030 0) 1060 false).
Proof.
  split; [discriminate|].
  edestruct (CreateNextRun_creates_next_tick Example.ids Example.every30s Example.noOffset
               1%N 2000 Example.key1 "0000000000000064" Example.task1 None zeroTime
               1000 1030 1060 (fun t => t + 30) (fun t => Some t) Example.created)
    as (H & _);
    [reflexivity | reflexivity | reflexivity | reflexivity | reflexivity | reflexivity
    | reflexivity | reflexivity | reflexivity | reflexivity | discriminate
    | reflexivity | reflexivity |].
  exact H.
Defined.

(** [NextDueRun] answers with the first tick after the pointer's
    [scheduledFor], or after the creation time when there is no pointer (or
    one at the zero time); no offset is applied and nothing is written.
    For a task created at or after the zero time whose pointer, if any, is
    later than the creation time, that answer is the tick [CreateNextRun]
    works on: it either refuses with the not-yet-due error carrying that
    tick plus the offset, or creates the run for exactly that tick. *)
Theorem NextDueRun_agrees_with_CreateNextRun (IDGenerator : nat -> ID)
    (cron_Parse : string -> option (Time -> Time))
    (offset_Parse : string -> option (Time -> option Time))
    (taskID : ID) (now : Z) (ek ei : string) (task : Task) (p : option Run)
    (lt c due nextDue : Time) (sch : Time -> Time) (off : Time -> option Time)
    (st : State) :
  Encode taskID = Some ek ->
  tasksv1 (store st) !! ek = Some (JTask task) ->
  task_ID task = taskID ->
  pointer (runsOf st !! (ek +:+ "/latestCompleted")) = Some p ->
  pointerTime p = Some lt ->
  task_CreatedAt task = Stamp c ->
  cron_Parse (EffectiveCron task) = Some sch ->
  NextDueRun cron_Parse taskID st = (inr (sch (if IsZero lt then c else lt)), st)
  /\ (zeroTime <= c -> p = None \/ c < lt ->
      offset_Parse (task_Offset task) = Some off ->
      queued (runsOf st !! (ek +:+ "/manualRuns")) = Some [] ->
      forall tick, NextDueRun cron_Parse taskID st = (inr tick, st) ->
      off tick = Some due ->
      (now < due ->
         CreateNextRun IDGenerator cron_Parse offset_Parse taskID now st
         = (inl (backend_RunNotYetDueError due), st))
      /\ (due <= now ->
          Encode (IDGenerator (issued st)) = Some ei ->
          off (sch tick) = Some nextDue ->
          fst (CreateNextRun IDGenerator cron_Parse offset_Parse taskID now st)
          = inr (mkRunCreation (mkQueuedRun taskID (IDGenerator (issued st)) tick 0)
                               nextDue false))).
Proof.
  intros He Ht Hid Hp Hlt Hc Hsch.
  assert (HN : NextDueRun cron_Parse taskID st
               = (inr (sch (if IsZero lt then c else lt)), st)).
  { unfold NextDueRun, View.
    rewrite (nextDueRun_run cron_Parse taskID ek task p lt c sch st
               He Ht Hid Hp Hlt Hc Hsch).
    now rewrite State_eta. }
  split; [exact HN|].
  intros Hz Hcase Hoff Hq tick Htick Hdue.
  assert (Ha : tick = sch (anchorTime c p lt)).
  { rewrite HN in Htick. injection Htick as <-. f_equal. unfold anchorTime, IsZero, After.
    destruct Hcase as [-> | Hclt].
    - cbn in Hlt. injection Hlt as <-. now rewrite Z.eqb_refl.
    - destruct p as [lr|].
      + replace (lt =? zeroTime) with false by (symmetry; apply Z.eqb_neq; lia).
        replace (c <? lt) with true by (symmetry; apply Z.ltb_lt; lia). reflexivity.
      + cbn in Hlt. injection Hlt as <-. lia. }
  subst tick. split.
  - intros Hnow. unfold CreateNextRun, Update.
    rewrite (createNextRun_not_due IDGenerator cron_Parse offset_Parse taskID now ek task
               p lt c due sch off st He Ht Hid Hp Hlt Hc Hsch Hoff Hq Hdue Hnow).
    now rewrite State_eta.
  - intros Hnow Hei Hnd. unfold CreateNextRun, Update.
    now rewrite (createNextRun_due IDGenerator cron_Parse offset_Parse taskID now ek task
               p lt c due sch off st He Ht Hid Hp Hlt Hc Hsch Hoff Hq Hdue
               ei nextDue Hnow Hei Hnd).
Qed.

Lemma NextDueRun_agrees_with_CreateNextRun_witness :
  NextDueRun Example.every30s 1%N Example.created = (inr 1030, Example.created)
  /\ CreateNextRun Example.ids Example.every30s Example.noOffset 1%N 1029 Example.created
     = (inl (backend_RunNotYetDueError 1030), Example.created).
Proof.
  edestruct (NextDueRun_agrees_with_CreateNextRun Example.ids Example.every30s
               Example.noOffset 1%N 1029 Example.key1 "0000000000000064" Example.task1
               None zeroTime 1000 1030 1060 (fun t => t + 30) (fun t => Some t)
               Example.created)
    as (H1 & H2); [reflexivity..|].
  split; [exact H1|].
  edestruct (H2 ltac:(discriminate) (or_introl eq_refl) eq_refl eq_refl 1030 H1 eq_refl)
    as (H & _).
  apply H. reflexivity.
Defined.

(** ** Finishing runs *)

Lemma FinishRun_run (taskID runID : ID) (ek er : string) (r : Run) (rt lt : Time)
    (p : option Run) (st : State) :
  Encode taskID = Some ek -> Encode runID = Some er ->
  runsOf st !! (ek +:+ "/" +:+ er) = Some (JRun r) ->
  run_ScheduledFor r = Stamp rt ->
  pointer (runsOf st !! (ek +:+ "/latestCompleted")) = Some p ->
  pointerTime p = Some lt ->
  let p' := if After rt lt then Some r else p in
  let st' := snd (FinishRun taskID runID st) in
  fst (FinishRun taskID runID st) = inr r
  /\ pointer (runsOf st' !! (ek +:+ "/latestCompleted")) = Some p'
  /\ pointerTime p' = Some (Z.max lt rt)
  /\ runsOf st' !! (ek +:+ "/" +:+ er) = None
  /\ (forall k, k ≠ ek +:+ "/" +:+ er -> k ≠ ek +:+ "/latestCompleted" ->
        runsOf st' !! k = runsOf st !! k)
  /\ tasksv1 (store st') = tasksv1 (store st).
Proof.
  intros He Hr Hrun Hrt Hp Hlt p' st'. subst st'. unfold FinishRun, Update.
  rewrite (finishRun_run taskID runID ek er r rt lt p st He Hr Hrun Hrt Hp Hlt).
  pose proof (runKey_neq_latestKey ek er (Encode_length _ _ Hr)) as Hne.
  subst p'. unfold After, runsOf in *. cbn.
  split; [reflexivity|].
  destruct (Z.ltb_spec lt rt) as [Hlt'|Hge].
  - split. { rewrite lookup_delete_ne by exact Hne. now rewrite lookup_insert_eq. }
    split. { cbn. rewrite Hrt. f_equal. lia. }
    split; [apply lookup_delete_eq|]. split; [|reflexivity].
    intros k Hk1 Hk2. rewrite lookup_delete_ne by congruence.
    now rewrite lookup_insert_ne by congruence.
  - split. { now rewrite lookup_delete_ne by exact Hne. }
    split. { rewrite Hlt. f_equal. lia. }
    split; [apply lookup_delete_eq|]. split; [|reflexivity].
    intros k Hk1 Hk2. now rewrite lookup_delete_ne by congruence.
Qed.

(** Finishing two runs of a task, one after the other: both leave the
    currently-running partition, and the latest-completed pointer ends up
    at the greatest [scheduledFor] among the old pointer and the two runs,
    so the order in which the two are finished does not change that time.
    If neither run is strictly newer than the old pointer, the pointer is
    the old one. *)
Theorem FinishRun_twice_keeps_latest (taskID id1 id2 : ID) (ek e1 e2 : string)
    (r1 r2 : Run) (rt1 rt2 lt : Time) (p : option Run) (st : State) :
  Encode taskID = Some ek -> Encode id1 = Some e1 -> Encode id2 = Some e2 ->
  e1 ≠ e2 ->
  runsOf st !! (ek +:+ "/" +:+ e1) = Some (JRun r1) ->
  runsOf st !! (ek +:+ "/" +:+ e2) = Some (JRun r2) ->
  run_ScheduledFor r1 = Stamp rt1 -> run_ScheduledFor r2 = Stamp rt2 ->
  pointer (runsOf st !! (ek +:+ "/latestCompleted")) = Some p ->
  pointerTime p = Some lt ->
  let st1 := snd (FinishRun taskID id1 st) in
  let st2 := snd (FinishRun taskID id2 st1) in
  fst (FinishRun taskID id1 st) = inr r1
  /\ fst (FinishRun taskID id2 st1) = inr r2
  /\ runsOf st2 !! (ek +:+ "/" +:+ e1) = None
  /\ runsOf st2 !! (ek +:+ "/" +:+ e2) = None
  /\ (exists p2, pointer (runsOf st2 !! (ek +:+ "/latestCompleted")) = Some p2
                 /\ pointerTime p2 = Some (Z.max lt (Z.max rt1 rt2))
                 /\ (rt1 <= lt -> rt2 <= lt -> p2 = p)).
Proof.
  intros He He1 He2 Hne Hr1 Hr2 Hrt1 Hrt2 Hp Hlt st1 st2.
  assert (Hk : ek +:+ "/" +:+ e2 ≠ ek +:+ "/" +:+ e1).
  { intros H. apply String.app_inj in H. injection H as H. cbv [append] in H.
    congruence. }
  destruct (FinishRun_run taskID id1 ek e1 r1 rt1 lt p st He He1 Hr1 Hrt1 Hp Hlt)
    as (F1 & Fp & Ft & Fn & Fo & _).
  fold st1 in Fp, Fn, Fo.
  assert (Hr2' : runsOf st1 !! (ek +:+ "/" +:+ e2) = Some (JRun r2)).
  { rewrite Fo; [exact Hr2 | exact Hk |].
    apply runKey_neq_latestKey. now apply Encode_length in He2. }
  destruct (FinishRun_run taskID id2 ek e2 r2 rt2 (Z.max lt rt1) _ st1
              He He2 Hr2' Hrt2 Fp Ft)
    as (G1 & Gp & Gt & Gn & Go & _).
  fold st2 in Gp, Gn, Go.
  split; [exact F1|]. split; [exact G1|]. split.
  { rewrite Go; [exact Fn | congruence |].
    apply runKey_neq_latestKey. now apply Encode_length in He1. }
  split; [exact Gn|].
  eexists. split; [exact Gp|]. split.
  - rewrite Gt. f_equal. lia.
  - intros H1 H2. unfold After.
    replace (lt <? rt1) with false by (symmetry; apply Z.ltb_ge; lia).
    replace (Z.max lt rt1 <? rt2) with false by (symmetry; apply Z.ltb_ge; lia).
    reflexivity.
Qed.

Lemma FinishRun_twice_keeps_latest_witness :
  let st :=
    mkState (mkStore ∅ {[ Example.key1 +:+ "/0000000000000007" := JRun Example.run7;
                          Example.key1 +:+ "/0000000000000009" := JRun Example.forced77 ]} ∅)
            0 5000 in
  fst (FinishRun 1%N 9%N (snd (FinishRun 1%N 7%N st))) = inr Example.forced77
  /\ exists p2,
       pointer (runsOf (snd (FinishRun 1%N 9%N (snd (FinishRun 1%N 7%N st))))
                  !! (Example.key1 +:+ "/latestCompleted")) = Some p2
       /\ pointerTime p2 = Some 1030.
Proof.
  intros st.
  edestruct (FinishRun_twice_keeps_latest 1%N 7%N 9%N Example.key1
               "0000000000000007" "0000000000000009" Example.run7 Example.forced77
               1030 77 zeroTime None st)
    as (_ & H2 & _ & _ & (p2 & H3 & H4 & _));
    [reflexivity | reflexivity | reflexivity | discriminate | reflexivity | reflexivity
    | reflexivity | reflexivity | reflexivity | reflexivity |].
  split; [exact H2|]. exists p2. split; [exact H3 | exact H4].
Defined.

(** ** The derived latest-completed time of a task *)

(** [FindTaskByID] returns the stored record with its latest-completed
    field replaced by the pointer's [scheduledFor], or by the creation time
    when there is no pointer (or one at the zero time), and writes nothing.
    After [FinishRun] on a run of the task it reports the later of the old
    pointer time and the run's [scheduledFor]. *)
Theorem FindTaskByID_latest_completed (taskID runID : ID) (ek er : string) (task : Task)
    (r : Run) (rt lt : Time) (p : option Run) (st : State) :
  Encode taskID = Some ek ->
  tasksv1 (store st) !! ek = Some (JTask task) ->
  task_ID task = taskID ->
  pointer (runsOf st !! (ek +:+ "/latestCompleted")) = Some p ->
  pointerTime p = Some lt ->
  FindTaskByID taskID st
  = (inr (set_task_LatestCompleted
            (if IsZero lt then task_CreatedAt task else Stamp lt) task), st)
  /\ (Encode runID = Some er ->
      runsOf st !! (ek +:+ "/" +:+ er) = Some (JRun r) ->
      run_ScheduledFor r = Stamp rt ->
      let st' := snd (FinishRun taskID runID st) in
      FindTaskByID taskID st'
      = (inr (set_task_LatestCompleted
                (if IsZero (Z.max lt rt) then task_CreatedAt task
                 else Stamp (Z.max lt rt)) task), st')).
Proof.
  intros He Ht Hid Hp Hlt.
  assert (HF : forall s q qt,
             tasksv1 (store s) !! ek = Some (JTask task) ->
             pointer (runsOf s !! (ek +:+ "/latestCompleted")) = Some q ->
             pointerTime q = Some qt ->
             FindTaskByID taskID s
             = (inr (set_task_LatestCompleted
                       (if IsZero qt then task_CreatedAt task else Stamp qt) task), s)).
  { intros s q qt Hs Hq Hqt. unfold FindTaskByID, View.
    rewrite (findTaskByID_run taskID ek task q qt s He Hs Hid Hq Hqt).
    rewrite State_eta. unfold foundTask, Format. now destruct (IsZero qt). }
  split; [now apply (HF st p lt)|].
  intros Hr Hrun Hrt st'.
  destruct (FinishRun_run taskID runID ek er r rt lt p st He Hr Hrun Hrt Hp Hlt)
    as (_ & Fp & Ft & _ & _ & Ftasks).
  fold st' in Fp, Ftasks.
  apply (HF st' (if After rt lt then Some r else p) (Z.max lt rt));
    [now rewrite Ftasks | exact Fp | exact Ft].
Qed.

Lemma FindTaskByID_latest_completed_witness :
  FindTaskByID 1%N Example.running
  = (inr (set_task_LatestCompleted (Stamp 1000) Example.task1), Example.running)
  /\ fst (FindTaskByID 1%N (snd (FinishRun 1%N 7%N Example.running)))
     = inr (set_task_LatestCompleted (Stamp 1030) Example.task1).
Proof.
  edestruct (FindTaskByID_latest_completed 1%N 7%N Example.key1 "0000000000000007"
               Example.task1 Example.run7 1030 zeroTime None Example.running)
    as (H1 & H2); [reflexivity..|].
  split; [exact H1|].
  now rewrite (H2 eq_refl eq_refl eq_refl).
Defined.

(** ** Listing runs *)

Lemma appendUpTo_take (limit : Z) (more runs : list Run) :
  (List.length runs < Z.to_nat (Z.max 1 limit))%nat ->
  appendUpTo limit runs more
  = (take (Z.to_nat (Z.max 1 limit)) (runs ++ more),
     Nat.leb (Z.to_nat (Z.max 1 limit)) (List.length (runs ++ more))).
Proof.
  revert runs. induction more as [|x more IH]; intros runs Hlt; cbn [appendUpTo].
  - rewrite app_nil_r, firstn_all2 by lia.
    f_equal. symmetry. apply Nat.leb_gt. exact Hlt.
  - destruct (Z.leb_spec limit (Z.of_nat (List.length (runs ++ [x])))) as [Hle|Hgt].
    + rewrite length_app in Hle. cbn in Hle.
      replace (runs ++ x :: more) with ((runs ++ [x]) ++ more)
        by (now rewrite <- app_assoc).
      rewrite take_app_length' by (rewrite length_app; cbn; lia).
      f_equal. symmetry. apply Nat.leb_le. rewrite !length_app. cbn. lia.
    + rewrite IH by lia. now rewrite <- app_assoc.
Qed.

Lemma pageSize_cases (limit : Z) :
  (limit = 0 \/ TaskMaxPageSize < limit -> pageSize limit = 500%nat)
  /\ (0 < limit <= TaskMaxPageSize -> pageSize limit = Z.to_nat limit)
  /\ (limit < 0 -> pageSize limit = 1%nat).
Proof.
  unfold pageSize, pageLimit.
  destruct (Z.eqb_spec limit 0) as [Hn|Hn];
    destruct (Z.ltb_spec TaskMaxPageSize limit) as [Hgt|Hle];
    cbv [orb]; unfold TaskMaxPageSize in *;
    (split; [|split]); intros H; try lia; reflexivity || (f_equal; lia).
Qed.

(** [FindRuns] lists the queued manual runs first, in queue order, then
    the currently-running ones in scan order, and cuts the list: at the
    given limit when it is between one and the maximum page size, at the
    maximum page size when the limit is zero or above the maximum, and
    after the first run when the limit is negative (a negative limit is
    not refused).  It writes nothing. *)
Theorem FindRuns_page (taskID : ID) (ek : string) (limit : Z)
    (m c : list Run) (st : State) :
  Encode taskID = Some ek ->
  queued (runsOf st !! (ek +:+ "/manualRuns")) = Some m ->
  currentlyRunning taskID st = (inr c, st) ->
  FindRuns taskID limit st = (inr (take (pageSize limit) (m ++ c)), st)
  /\ (limit = 0 \/ TaskMaxPageSize < limit -> pageSize limit = 500%nat)
  /\ (0 < limit <= TaskMaxPageSize -> pageSize limit = Z.to_nat limit)
  /\ (limit < 0 -> pageSize limit = 1%nat).
Proof.
  intros He Hq Hc. split; [|apply pageSize_cases].
  assert (Hpos : (0 < pageSize limit)%nat) by (unfold pageSize; lia).
  unfold FindRuns, View, findRuns. fold (pageLimit limit).
  rewrite (bind_run _ _ _ _ _ (manualRuns_run taskID ek m st He Hq)).
  rewrite (appendUpTo_take (pageLimit limit) m []) by exact Hpos.
  fold (pageSize limit).
  cbn [app]. destruct (Nat.leb_spec (pageSize limit) (List.length m)) as [Hfull|Hnot].
  - unfold mret, Tx_ret. rewrite State_eta. now rewrite take_app_le by exact Hfull.
  - rewrite (bind_run _ _ _ _ _ Hc).
    rewrite (appendUpTo_take (pageLimit limit) c (take (pageSize limit) m))
      by (fold (pageSize limit); rewrite length_take; lia).
    fold (pageSize limit).
    unfold mret, Tx_ret. cbn [fst]. rewrite State_eta.
    now rewrite (take_ge m (pageSize limit)) by lia.
Qed.

Lemma FindRuns_page_witness :
  let st := snd (ForceRun Example.ids 1%N 77 Example.running) in
  currentlyRunning 1%N st = (inr [Example.run7], st)
  /\ FindRuns 1%N (-1) st = (inr [forcedRun Example.ids 1%N 77 Example.running], st)
  /\ FindRuns 1%N 0 st
     = (inr [forcedRun Example.ids 1%N 77 Example.running; Example.run7], st).
Proof.
  intros st.
  assert (Hc : currentlyRunning 1%N st = (inr [Example.run7], st))
    by (vm_compute; reflexivity).
  split; [exact Hc|]. split.
  - edestruct (FindRuns_page 1%N Example.key1 (-1)
                 [forcedRun Example.ids 1%N 77 Example.running] [Example.run7] st)
      as (H & _); [reflexivity | vm_compute; reflexivity | exact Hc |].
    exact H.
  - edestruct (FindRuns_page 1%N Example.key1 0
                 [forcedRun Example.ids 1%N 77 Example.running] [Example.run7] st)
      as (H & _); [reflexivity | vm_compute; reflexivity | exact Hc |].
    exact H.
Defined.

(** ** Scanning the currently-running partition *)

Lemma In_insert_sorted (x e : string * Value) (l : list (string * Value)) :
  In x (insert_sorted e l) <-> x = e \/ In x l.
Proof.
  induction l as [|y l IH]; cbn.
  - intuition.
  - destruct (fst e <=? fst y)%string; cbn; rewrite ?IH; intuition.
Qed.

Lemma In_entries (m : gmap string Value) (k : string) (v : Value) :
  In (k, v) (entries m) <-> m !! k = Some v.
Proof.
  rewrite <- elem_of_map_to_list, list_elem_of_In. unfold entries.
  induction (map_to_list m) as [|e l IH]; [reflexivity|].
  cbn [foldr]. rewrite In_insert_sorted, IH. cbn [In]. intuition.
Qed.

Lemma currentlyRunning_loop_sound (taskID : ID) (tk : string)
    (c : list (string * Value)) :
  forall acc runs,
    currentlyRunning_loop taskID tk c acc = inr runs ->
    forall r, In r runs ->
      In r acc
      \/ (run_TaskID r = taskID
          /\ exists k, In (k, JRun r) c /\ HasPrefix k tk = true
                       /\ HasSuffix k "manualRuns" = false
                       /\ HasSuffix k "latestCompleted" = false).
Proof.
  induction c as [|[k v] c IH]; intros acc runs Hloop r Hin; cbn in Hloop.
  - injection Hloop as <-. now left.
  - destruct (HasPrefix k tk) eqn:Hpre; cbn in Hloop;
      [|injection Hloop as <-; now left].
    destruct (HasSuffix k "manualRuns") eqn:Hm; cbn in Hloop.
    { destruct (IH acc runs Hloop r Hin) as [H|(Ht & k' & Hk' & Hrest)];
        [now left | right; split; [exact Ht|]; exists k'; split; [now right | exact Hrest]]. }
    destruct (HasSuffix k "latestCompleted") eqn:Hl; cbn in Hloop.
    { destruct (IH acc runs Hloop r Hin) as [H|(Ht & k' & Hk' & Hrest)];
        [now left | right; split; [exact Ht|]; exists k'; split; [now right | exact Hrest]]. }
    destruct v as [t0|r0|l0|s0]; cbn in Hloop; try discriminate.
    destruct (N.eqb_spec (run_TaskID r0) taskID) as [Heq|Hneq]; cbn in Hloop;
      [|injection Hloop as <-; now left].
    destruct (IH (acc ++ [r0]) runs Hloop r Hin) as [H|(Ht & k' & Hk' & Hrest)].
    + apply in_app_or in H as [H|[<-|[]]]; [now left|].
      right. split; [exact Heq|]. exists k. repeat split; auto. now left.
    + right. split; [exact Ht|]. exists k'. split; [now right | exact Hrest].
Qed.

(** What [CurrentlyRunning] returns, when it succeeds: only runs that are
    stored in the run bucket under a key that starts with the task's key
    and does not end in one of the two reserved names, and whose [TaskID]
    field is the task asked for; never the content of the manual queue or
    of the latest-completed pointer.  The state is not changed. *)
Theorem CurrentlyRunning_sound (taskID : ID) (ek : string)
    (runs : list Run) (st st' : State) :
  Encode taskID = Some ek ->
  CurrentlyRunning taskID st = (inr runs, st') ->
  st' = st
  /\ forall r, In r runs ->
       run_TaskID r = taskID
       /\ exists k, runsOf st !! k = Some (JRun r)
                    /\ HasPrefix k ek = true
                    /\ HasSuffix k "manualRuns" = false
                    /\ HasSuffix k "latestCompleted" = false.
Proof.
  intros He. unfold CurrentlyRunning, View, currentlyRunning, taskKey. rewrite He.
  do 2 tx_prim. unfold Seek at 1. unfold mbind, Tx_bind, liftE.
  destruct (currentlyRunning_loop taskID ek _ []) as [e|rs] eqn:Hloop;
    cbn; [discriminate|].
  rewrite State_eta. intros H. injection H as <- <-. split; [reflexivity|].
  intros r Hin.
  destruct (currentlyRunning_loop_sound taskID ek _ [] rs Hloop r Hin)
    as [[]|(Ht & k & Hk & Hrest)].
  split; [exact Ht|]. exists k. split; [|exact Hrest].
  apply filter_In in Hk as [Hk _]. now apply In_entries in Hk.
Qed.

Lemma CurrentlyRunning_sound_witness :
  CurrentlyRunning 1%N Example.running = (inr [Example.run7], Example.running)
  /\ run_TaskID Example.run7 = 1%N.
Proof.
  assert (H : CurrentlyRunning 1%N Example.running
              = (inr [Example.run7], Example.running)) by (vm_compute; reflexivity).
  split; [exact H|].
  destruct (CurrentlyRunning_sound 1%N Example.key1 [Example.run7]
              Example.running Example.running eq_refl H) as (_ & Hall).
  destruct (Hall Example.run7 (or_introl eq_refl)) as (Ht & _). exact Ht.
Defined.

(** ** Deleting a task *)

Lemma manualRuns_readonly (taskID : ID) (st : State) :
  snd (manualRuns taskID st) = st.
Proof.
  unfold manualRuns, taskManualRunKey. tx_unfold.
  destruct (Encode taskID); cbn; [|reflexivity].
  destruct (taskRunsv1 (store st) !! _) as [[]|]; reflexivity.
Qed.

Lemma currentlyRunning_readonly (taskID : ID) (st : State) :
  snd (currentlyRunning taskID st) = st.
Proof.
  unfold currentlyRunning, taskKey, Seek. tx_unfold.
  destruct (Encode taskID); cbn; [|reflexivity].
  now destruct (currentlyRunning_loop _ _ _ _).
Qed.

Lemma findRuns_readonly (taskID : ID) (limit : Z) (st : State) :
  snd (findRuns taskID limit st) = st.
Proof.
  unfold findRuns. unfold mbind at 1, Tx_bind at 1.
  pose proof (manualRuns_readonly taskID st) as Hm.
  destruct (manualRuns taskID st) as [[e|m] s]; cbn in Hm; subst s; [reflexivity|].
  destruct (appendUpTo _ [] m) as [runs full]. destruct full; [reflexivity|].
  unfold mbind, Tx_bind.
  pose proof (currentlyRunning_readonly taskID st) as Hc.
  destruct (currentlyRunning taskID st) as [[e|c] s]; cbn in Hc; subst s; reflexivity.
Qed.

(** What the deletion loop does to the store, whether or not it gets to
    the end: the other buckets are untouched, and a key of the run bucket
    either holds what it held or is a run key of the task that is now
    absent. *)
Lemma deleteTask_runs_frame (taskID : ID) (ek : string) (runs : list Run) :
  Encode taskID = Some ek ->
  forall st,
    let st' := snd (deleteTask_runs taskRunBucket taskID runs st) in
    tasksv1 (store st') = tasksv1 (store st)
    /\ taskIndexsv1 (store st') = taskIndexsv1 (store st)
    /\ forall k, runsOf st' !! k = runsOf st !! k
                 \/ (runsOf st' !! k = None
                     /\ exists er, String.length er = 16%nat /\ k = ek +:+ "/" +:+ er).
Proof.
  intros He. induction runs as [|run runs IH]; intros st; cbn [deleteTask_runs].
  - cbn. repeat split. now left.
  - unfold taskRunKey. rewrite He.
    destruct (Encode (run_ID run)) as [er|] eqn:Er.
    + do 2 tx_prim.
      match goal with
      | |- context [deleteTask_runs _ _ _ ?s] => specialize (IH s); set (s2 := s) in *
      end.
      cbn zeta in IH. destruct IH as (I1 & I2 & I3).
      split; [exact I1|]. split; [exact I2|].
      intros k. destruct (I3 k) as [Hsame|Hgone]; [|now right].
      rewrite Hsame. unfold runsOf at 1 3. subst s2. cbn.
      destruct (decide (k = ek +:+ "/" +:+ er)) as [->|Hk].
      * right. split; [apply lookup_delete_eq|].
        exists er. split; [now apply Encode_length in Er | reflexivity].
      * left. now apply lookup_delete_ne.
    + cbn. repeat split. now left.
Qed.

(** When [DeleteTask] succeeds on a task stored under its own id: the task
    record, the entry of the organization index and the latest-completed
    pointer are gone; no key of the run bucket holds anything it did not
    hold before; and the key of the manual queue holds exactly what it
    held, the deletion never touching it. *)
Theorem DeleteTask_success (taskID : ID) (ek eo : string) (task : Task)
    (p : option Run) (lt : Time) (st : State) :
  Encode taskID = Some ek ->
  tasksv1 (store st) !! ek = Some (JTask task) ->
  task_ID task = taskID ->
  Encode (task_OrganizationID task) = Some eo ->
  pointer (runsOf st !! (ek +:+ "/latestCompleted")) = Some p ->
  pointerTime p = Some lt ->
  fst (DeleteTask taskID st) = inr tt ->
  let st' := snd (DeleteTask taskID st) in
  tasksv1 (store st') = delete ek (tasksv1 (store st))
  /\ taskIndexsv1 (store st') = delete (eo +:+ "/" +:+ ek) (taskIndexsv1 (store st))
  /\ runsOf st' !! (ek +:+ "/latestCompleted") = None
  /\ runsOf st' !! (ek +:+ "/manualRuns") = runsOf st !! (ek +:+ "/manualRuns")
  /\ (forall k v, runsOf st' !! k = Some v -> runsOf st !! k = Some v).
Proof.
  intros He Ht Hid Heo Hp Hlt. unfold DeleteTask, Update, deleteTask.
  do 3 tx_prim.
  rewrite (bind_run _ _ _ _ _ (findTaskByID_run taskID ek task p lt st He Ht Hid Hp Hlt)).
  destruct (foundTask_fields task lt) as (Hfid & _).
  assert (Hforg : task_OrganizationID (foundTask task lt) = task_OrganizationID task).
  { unfold foundTask. now destruct (negb (IsZero lt)). }
  rewrite Hfid, Hforg, Hid.
  unfold taskOrgKey, taskLatestCompletedKey, taskKey. rewrite Heo, He.
  do 4 tx_prim.
  set (st2 := mkState _ _ _).
  pose proof (findRuns_readonly taskID 0 st2) as Hro.
  destruct (findRuns taskID 0 st2) as [[e|runs] s] eqn:Hfr; cbn in Hro; subst s.
  { rewrite (bind_fail _ _ _ _ _ Hfr). cbn. discriminate. }
  rewrite (bind_run _ _ _ _ _ Hfr).
  pose proof (deleteTask_runs_frame taskID ek runs He st2) as Hframe.
  cbn zeta in Hframe.
  destruct (deleteTask_runs taskRunBucket taskID runs st2) as [[e|[]] st3] eqn:Hdr;
    cbn [snd] in Hframe.
  { rewrite (bind_fail _ _ _ _ _ Hdr). cbn. discriminate. }
  rewrite (bind_run _ _ _ _ _ Hdr). tx_prim.
  unfold Delete. cbn. intros _.
  destruct Hframe as (F1 & F2 & F3).
  assert (Hst2 : runsOf st2 = delete (ek +:+ "/latestCompleted") (runsOf st))
    by reflexivity.
  split. { rewrite F1. reflexivity. }
  split. { rewrite F2. reflexivity. }
  split.
  { destruct (F3 (ek +:+ "/latestCompleted")) as [Hs|[Hn _]]; [|exact Hn].
    unfold runsOf in Hs |- *. cbn. rewrite Hs. apply lookup_delete_eq. }
  split.
  { destruct (F3 (ek +:+ "/manualRuns")) as [Hs|(_ & er & Hl & Hk)].
    - unfold runsOf in Hs |- *. cbn. rewrite Hs. cbn.
      apply lookup_delete_ne. apply not_eq_sym, manualKey_neq_latestKey.
    - symmetry in Hk. now apply runKey_neq_manualKey in Hk. }
  intros k v Hk. unfold runsOf in Hk |- *. cbn in Hk.
  destruct (F3 k) as [Hs|[Hn _]].
  - unfold runsOf in Hs. rewrite Hs in Hk. cbn in Hk.
    apply lookup_delete_Some in Hk. tauto.
  - unfold runsOf in Hn. congruence.
Qed.

Lemma DeleteTask_success_witness :
  fst (DeleteTask 1%N Example.running) = inr tt
  /\ tasksv1 (store (snd (DeleteTask 1%N Example.running)))
     = delete Example.key1 (tasksv1 (store Example.running)).
Proof.
  assert (H : fst (DeleteTask 1%N Example.running) = inr tt) by (vm_compute; reflexivity).
  split; [exact H|].
  edestruct (DeleteTask_success 1%N Example.key1 "0000000000000002" Example.task1
               None zeroTime Example.running)
    as (H1 & _); [reflexivity | reflexivity | reflexivity | reflexivity | reflexivity
                  | reflexivity | exact H |].
  exact H1.
Defined.

(** ** The manual queue *)

Lemma retryRun_run (IDGenerator : nat -> ID) (taskID runID : ID)
    (ek er : string) (r : Run) (l : list Run) (st : State) :
  Encode taskID = Some ek -> Encode runID = Some er ->
  runsOf st !! (ek +:+ "/" +:+ er) = Some (JRun r) ->
  runsOf st !! (ek +:+ "/manualRuns") = Some (JRuns l) ->
  let clone := mkRun (IDGenerator (issued st)) (run_TaskID r) "" (run_ScheduledFor r)
                     Blank Blank Blank (run_Log r) in
  RetryRun IDGenerator taskID runID st
  = (inr clone,
     mkState (with_bucket taskRunBucket
                (<[ek +:+ "/manualRuns" := JRuns (l ++ [clone])]> (runsOf st)) (store st))
             (S (issued st)) (clock st)).
Proof.
  intros He Hr Hrun Hq clone. unfold RetryRun, Update, retryRun.
  tx_step (findRunByID_found taskID runID ek er r st He Hr Hrun).
  unfold IDGenerator_ID, taskManualRunKey. rewrite He. do 3 tx_prim.
  tx_step (Get_run taskRunBucket (ek +:+ "/manualRuns")
             (mkState (store st) (S (issued st)) (clock st))).
  cbn [bucket store]. unfold runsOf in *. rewrite Hq.
  cbn [unmarshalRuns orFail]. do 2 tx_prim. reflexivity.
Qed.

(** [RetryRun] once the queue key exists: the clone takes a fresh id, an
    empty status and empty started, finished and requested times, keeps
    the task id, the [scheduledFor] and the log of the original, and goes
    to the tail of the queue, the original record staying as it is.  No
    duplicate check is made: a second retry of the same run queues a second
    clone with the same [scheduledFor]. *)
Theorem RetryRun_twice (IDGenerator : nat -> ID) (taskID runID : ID)
    (ek er : string) (r : Run) (l : list Run) (st : State) :
  Encode taskID = Some ek -> Encode runID = Some er ->
  runsOf st !! (ek +:+ "/" +:+ er) = Some (JRun r) ->
  runsOf st !! (ek +:+ "/manualRuns") = Some (JRuns l) ->
  let clone1 := mkRun (IDGenerator (issued st)) (run_TaskID r) "" (run_ScheduledFor r)
                      Blank Blank Blank (run_Log r) in
  let clone2 := mkRun (IDGenerator (S (issued st))) (run_TaskID r) "" (run_ScheduledFor r)
                      Blank Blank Blank (run_Log r) in
  let st1 := snd (RetryRun IDGenerator taskID runID st) in
  let st2 := snd (RetryRun IDGenerator taskID runID st1) in
  fst (RetryRun IDGenerator taskID runID st) = inr clone1
  /\ ManualRuns taskID st1 = (inr (l ++ [clone1]), st1)
  /\ FindRunByID taskID runID st1 = (inr r, st1)
  /\ fst (RetryRun IDGenerator taskID runID st1) = inr clone2
  /\ ManualRuns taskID st2 = (inr (l ++ [clone1; clone2]), st2)
  /\ FindRunByID taskID runID st2 = (inr r, st2).
Proof.
  intros He Hr Hrun Hq clone1 clone2 st1 st2.
  pose proof (runKey_neq_manualKey ek er (Encode_length _ _ Hr)) as Hne.
  pose proof (retryRun_run IDGenerator taskID runID ek er r l st He Hr Hrun Hq) as H1.
  cbn zeta in H1. fold clone1 in H1.
  assert (Hq1 : runsOf st1 !! (ek +:+ "/manualRuns") = Some (JRuns (l ++ [clone1]))).
  { subst st1. rewrite H1. unfold runsOf at 1. cbn. apply lookup_insert_eq. }
  assert (Hrun1 : runsOf st1 !! (ek +:+ "/" +:+ er) = Some (JRun r)).
  { subst st1. rewrite H1. unfold runsOf at 1. cbn.
    rewrite lookup_insert_ne by congruence. exact Hrun. }
  assert (Hi1 : issued st1 = S (issued st)) by (subst st1; now rewrite H1).
  pose proof (retryRun_run IDGenerator taskID runID ek er r (l ++ [clone1]) st1
                He Hr Hrun1 Hq1) as H2.
  cbn zeta in H2. rewrite Hi1 in H2. fold clone2 in H2.
  assert (Hq2 : runsOf st2 !! (ek +:+ "/manualRuns")
                = Some (JRuns (l ++ [clone1; clone2]))).
  { subst st2. rewrite H2. unfold runsOf at 1. cbn. rewrite lookup_insert_eq.
    now rewrite <- app_assoc. }
  assert (Hrun2 : runsOf st2 !! (ek +:+ "/" +:+ er) = Some (JRun r)).
  { subst st2. rewrite H2. unfold runsOf at 1. cbn.
    rewrite lookup_insert_ne by congruence. exact Hrun1. }
  assert (HM : forall s q, runsOf s !! (ek +:+ "/manualRuns") = Some (JRuns q) ->
                 ManualRuns taskID s = (inr q, s)).
  { intros s q Hs. unfold ManualRuns, View.
    erewrite manualRuns_run; [now rewrite State_eta | exact He | now rewrite Hs]. }
  assert (HF : forall s, runsOf s !! (ek +:+ "/" +:+ er) = Some (JRun r) ->
                 FindRunByID taskID runID s = (inr r, s)).
  { intros s Hs. unfold FindRunByID, View.
    erewrite findRunByID_found; [now rewrite State_eta | exact He | exact Hr | exact Hs]. }
  split; [now rewrite H1|]. split; [now apply HM|]. split; [now apply HF|].
  split; [now rewrite H2|]. split; [now apply HM | now apply HF].
Qed.

Lemma RetryRun_twice_witness :
  let st := snd (ForceRun Example.ids 1%N 77 Example.running) in
  runsOf st !! (Example.key1 +:+ "/0000000000000007") = Some (JRun Example.run7)
  /\ fst (RetryRun Example.ids 1%N 7%N (snd (RetryRun Example.ids 1%N 7%N st)))
     = inr (mkRun 102%N 1%N "" (Stamp 1030) Blank Blank Blank []).
Proof.
  intros st. split; [vm_compute; reflexivity|].
  edestruct (RetryRun_twice Example.ids 1%N 7%N Example.key1 "0000000000000007"
               Example.run7 [forcedRun Example.ids 1%N 77 Example.running] st)
    as (_ & _ & _ & H & _);
    [reflexivity | reflexivity | vm_compute; reflexivity | vm_compute; reflexivity |].
  exact H.
Defined.

(** Forced runs queue up in the order of the requests: after
    [ForceRun(T, t1)] and [ForceRun(T, t2)] with two different times
    neither of which was queued, [ManualRuns] lists the earlier entries,
    then the run for [t1], then the run for [t2], each with the id the
    generator gave it and the wall-clock time as [requestedAt]. *)
Theorem ForceRun_queue_order (IDGenerator : nat -> ID) (taskID : ID) (ek : string)
    (t1 t2 : Z) (l : list Run) (st : State) :
  Encode taskID = Some ek ->
  queued (runsOf st !! (ek +:+ "/manualRuns")) = Some l ->
  existsb (scheduledAt t1) l = false ->
  existsb (scheduledAt t2) l = false ->
  t1 ≠ t2 ->
  let st1 := snd (ForceRun IDGenerator taskID t1 st) in
  let st2 := snd (ForceRun IDGenerator taskID t2 st1) in
  let r1 := mkRun (IDGenerator (issued st)) taskID "" (Stamp t1) Blank Blank
                  (Stamp (clock st)) [] in
  let r2 := mkRun (IDGenerator (S (issued st))) taskID "" (Stamp t2) Blank Blank
                  (Stamp (clock st)) [] in
  fst (ForceRun IDGenerator taskID t1 st) = inr r1
  /\ fst (ForceRun IDGenerator taskID t2 st1) = inr r2
  /\ ManualRuns taskID st2 = (inr (l ++ [r1; r2]), st2).
Proof.
  intros He Hq H1 H2 Hne st1 st2 r1 r2.
  assert (F1 : ForceRun IDGenerator taskID t1 st
               = (inr r1, mkState (with_bucket taskRunBucket
                            (<[ek +:+ "/manualRuns" := JRuns (l ++ [r1])]> (runsOf st))
                            (store st))
                          (S (issued st)) (clock st))).
  { unfold ForceRun, Update.
    now rewrite (forceRun_fresh IDGenerator taskID ek t1 l st He Hq H1). }
  assert (Hq1 : queued (runsOf st1 !! (ek +:+ "/manualRuns")) = Some (l ++ [r1])).
  { subst st1. rewrite F1. unfold runsOf at 1. cbn. now rewrite lookup_insert_eq. }
  assert (Hex : existsb (scheduledAt t2) (l ++ [r1]) = false).
  { rewrite existsb_app, H2. cbn. unfold scheduledAt, Format, time_Unix. cbn.
    rewrite orb_false_r. apply bool_decide_eq_false. congruence. }
  assert (F2 : ForceRun IDGenerator taskID t2 st1
               = (inr r2, mkState (with_bucket taskRunBucket
                            (<[ek +:+ "/manualRuns" := JRuns ((l ++ [r1]) ++ [r2])]>
                               (runsOf st1)) (store st1))
                          (S (issued st1)) (clock st1))).
  { unfold ForceRun, Update.
    rewrite (forceRun_fresh IDGenerator taskID ek t2 (l ++ [r1]) st1 He Hq1 Hex).
    subst st1. rewrite F1. reflexivity. }
  split; [now rewrite F1|]. split; [now rewrite F2|].
  unfold ManualRuns, View.
  erewrite manualRuns_run; [now rewrite State_eta | exact He |].
  subst st2. rewrite F2. unfold runsOf at 1. cbn. rewrite lookup_insert_eq.
  cbn. now rewrite <- app_assoc.
Qed.

Lemma ForceRun_queue_order_witness :
  77 ≠ 78
  /\ ManualRuns 1%N (snd (ForceRun Example.ids 1%N 78
                            (snd (ForceRun Example.ids 1%N 77 Example.created))))
     = (inr [mkRun 100%N 1%N "" (Stamp 77) Blank Blank (Stamp 5000) [];
             mkRun 101%N 1%N "" (Stamp 78) Blank Blank (Stamp 5000) []],
        snd (ForceRun Example.ids 1%N 78
               (snd (ForceRun Example.ids 1%N 77 Example.created)))).
Proof.
  split; [discriminate|].
  edestruct (ForceRun_queue_order Example.ids 1%N Example.key1 77 78 [] Example.created)
    as (_ & _ & H);
    [reflexivity | reflexivity | reflexivity | reflexivity | discriminate |].
  exact H.
Defined.
